(** * The OIDC login client of qvain-api: [internal/oidc/client.go]

    A shallow embedding of the two HTTP handlers [Auth] and [Callback] and of
    the diagnostic [DumpToken], together with the properties of the login
    flow that the design document states about them.

    The handlers talk to collaborators that live outside the package: the
    random source, the clock, the identity provider (code exchange and
    token verification), the logger, the response writer and the
    application's [OnLogin] hook.  Every call a handler makes to one of them
    is recorded, in program order and with its answer, in a trace; a handler
    is a computation in a small state monad over that trace and a store of
    token objects.

    The development also covers the constructor [NewOidcClient] with its
    options, and the dataset filters of [internal/psql/filters.go]: the time
    filter parser and the builder of WHERE clauses, as state-passing
    functions. *)

From Stdlib Require Import ZArith Ascii String DecimalString DecimalZ.
From stdpp Require Import base option list strings gmap.

Local Open Scope Z_scope.
Local Open Scope string_scope.

(** ** Values of the Go libraries the package uses *)

(** [time.Time] and [time.Duration], both counted in nanoseconds. *)
Definition Time := Z.
Definition Duration := Z.
Definition Second : Duration := 1000000000.
Definition time_Add (t : Time) (d : Duration) : Time := t + d.

(** Go [error] values.  The handlers compare errors by identity with the two
    package-level sentinels; every other error is [ErrOther]. *)
Inductive error :=
| ErrMissingCSCUserName
| ErrMissingOrganization
| ErrNoCookie
| ErrOther (msg : string).

#[global] Instance error_eq_dec : EqDecision error.
Proof. solve_decision. Defined.

(** [err.Error()]. *)
Definition error_Error (e : error) : string :=
  match e with
  | ErrMissingCSCUserName => "Missing CSCUserName field"
  | ErrMissingOrganization => "Missing Organization field"
  | ErrNoCookie => "http: named cookie not present"
  | ErrOther msg => msg
  end.

(** A Go result pair [(v, err)]. *)
Inductive result (A : Type) :=
| Ok (v : A)
| Err (e : error).
Arguments Ok {A} v.
Arguments Err {A} e.

(** [http.Cookie]; [Expires = None] is the zero time. *)
Record Cookie := mkCookie {
  Name : string;
  Value : string;
  Path : string;
  Expires : option Time;
  MaxAge : Z;
  Secure : bool;
  HttpOnly : bool
}.

(** [url.Values] and its [Get]: the first value of the key, or the empty
    string when the key has none. *)
Definition Values_Get (v : gmap string (list string)) (key : string) : string :=
  match v !! key with
  | Some (x :: _) => x
  | _ => ""
  end.

Record URL := mkURL { RawQuery : string }.

(** [http.Request]: the cookies of its Cookie headers, in order, and its URL. *)
Record Request := mkRequest {
  Cookies : list Cookie;
  ReqURL : URL
}.

(** [r.Cookie(name)]: the first cookie of that name. *)
Definition Request_Cookie (r : Request) (name : string) : result Cookie :=
  if decide (name = "") then Err ErrNoCookie
  else match filter (λ c, Name c = name) (Cookies r) with
       | c :: _ => Ok c
       | [] => Err ErrNoCookie
       end.

(** A value of dynamic type held in [interface{}]: a string or anything else. *)
Inductive ExtraVal :=
| XString (s : string)
| XOther.

(** [oauth2.Token]. *)
Record Token := mkToken {
  AccessToken : string;
  TokenType : string;
  RefreshToken : string;
  Expiry : Time;
  raw : gmap string ExtraVal
}.

(** [t.Extra(key).(string)]: the extra field and whether it is a string. *)
Definition Token_Extra_string (t : Token) (key : string) : string * bool :=
  match raw t !! key with
  | Some (XString s) => (s, true)
  | _ => ("", false)
  end.

(** [gooidc.IDToken]; [claims = None] is the nil byte slice. *)
Record IDToken := mkIDToken {
  Issuer : string;
  Audience : list string;
  Subject : string;
  IDExpiry : Time;
  claims : option string
}.

(** The anonymous struct [DumpToken] serializes: the token its pointer
    refers to when it is marshalled, and the [*json.RawMessage] of the
    claims ([None] is nil). *)
Record DumpOut := mkDumpOut {
  OAuth2Token : Token;
  IDTokenClaims : option string
}.

(** [oauth2.Config]. *)
Record Config := mkConfig {
  ClientID : string;
  ClientSecret : string;
  RedirectURL : string;
  Scopes : list string
}.

Definition Key := string.

(** ** Constants of the package *)

Definition DefaultLoginTimeout : Z := 600.
Definition DefaultCookiePath : string := "/api/auth".

Definition StatusFound : Z := 302.
Definition StatusBadRequest : Z := 400.
Definition StatusForbidden : Z := 403.
Definition StatusInternalServerError : Z := 500.

(** ** The trace of calls to collaborators *)

Inductive logLevel := LvlDebug | LvlInfo | LvlError.

Inductive logField :=
| FStr (k v : string)
| FBool (k : string) (b : bool)
| FErr (e : error).

Definition loc := positive.

(** One call of a handler to a collaborator, with the answer it got.
    [EvHttpError], [EvRedirect], [EvSetCookie], [EvHeaderSet] and [EvWrite]
    are the calls on the response writer, with their arguments; [EvOnLogin]
    is the call of the application's hook, whose own use of the response
    writer is the hook's business and is not recorded. *)
Inductive event :=
| EvRandom16 (res : result Key)
| EvNow (t : Time)
| EvSetCookie (c : Cookie)
| EvHttpError (msg : string) (code : Z)
| EvRedirect (url : string) (code : Z)
| EvExchange (code : string) (res : result Token)
| EvVerify (rawIDToken : string) (res : result IDToken)
| EvOnLogin (tok : option Token) (idToken : IDToken) (res : option error)
| EvLog (lvl : logLevel) (fields : list logField) (msg : string)
| EvHeaderSet (k v : string)
| EvWrite (data : string).

(** What the world answers during one request. *)
Record Env := mkEnv {
  random16 : result Key;
  now : Time;
  exchange : string → result Token;
  verify : string → result IDToken
}.

(** [OidcClient], without the logger and the provider handles, which are
    reached through the trace and [Env]. *)
Record OidcClient := mkClient {
  ClientName : string;
  clientID : string;
  frontendUrl : string;
  state : string;
  allowDevLogin : bool;
  oauthConfig : Config;
  OnLogin : option (Request → option Token → IDToken → option error)
}.

(** ** The handler monad *)

Record State := mkState {
  trace : list event;
  heap : gmap loc Token
}.

(** A statement yields a value, returns from the handler, or panics. *)
Inductive outcome (A : Type) :=
| Val (a : A)
| Returned
| Panicked.
Arguments Val {A} a.
Arguments Returned {A}.
Arguments Panicked {A}.

Definition M (A : Type) : Type := State → outcome A * State.

Definition M_ret {A} (a : A) : M A := λ s, (Val a, s).

Definition M_bind {A B} (m : M A) (k : A → M B) : M B :=
  λ s, match m s with
       | (Val a, s') => k a s'
       | (Returned, s') => (Returned, s')
       | (Panicked, s') => (Panicked, s')
       end.

Notation "x <- m ;; k" := (M_bind m (λ x, k))
  (at level 100, m at next level, right associativity).
Notation "m ;;; k" := (M_bind m (λ _, k))
  (at level 100, right associativity).

Definition emit (e : event) : M unit :=
  λ s, (Val tt, mkState (trace s ++ [e]) (heap s)).

Definition exit {A} : M A := λ s, (Returned, s).
Definition panic {A} : M A := λ s, (Panicked, s).

(** Reading and writing through a [*oauth2.Token]; [None] is the nil
    pointer, and dereferencing it panics. *)
Definition load (p : option loc) : M Token :=
  λ s, match p with
       | Some l => match heap s !! l with
                   | Some t => (Val t, s)
                   | None => (Panicked, s)
                   end
       | None => (Panicked, s)
       end.

Definition store (p : option loc) (f : Token → Token) : M unit :=
  λ s, match p with
       | Some l => match heap s !! l with
                   | Some t => (Val tt, mkState (trace s) (<[l := f t]> (heap s)))
                   | None => (Panicked, s)
                   end
       | None => (Panicked, s)
       end.

Definition set_AccessToken (v : string) (t : Token) : Token :=
  mkToken v (TokenType t) (RefreshToken t) (Expiry t) (raw t).

Definition set_RefreshToken (v : string) (t : Token) : Token :=
  mkToken (AccessToken t) (TokenType t) v (Expiry t) (raw t).

(** The token as the two censoring assignments leave it. *)
Definition censored (t : Token) : Token :=
  let t1 := if decide (AccessToken t ≠ "") then set_AccessToken "***" t else t in
  if decide (RefreshToken t1 ≠ "") then set_RefreshToken "***" t1 else t1.

Definition initState (h : gmap loc Token) : State := mkState [] h.

(** The calls a handler has made when run from an empty trace. *)
Definition run (m : M unit) : list event := trace (snd (m (initState ∅))).

(** ** The handlers *)

Section Handlers.

(** Library functions the handlers call. *)
Variable ParseQuery : string → gmap string (list string).
Variable Base64 : Key → string.
Variable AuthCodeURL : Config → string → list (string * string) → string.
Variable json_Unmarshal : string → result (option string).
Variable json_MarshalIndent : DumpOut → result string.

Variable env : Env.
Variable client : OidcClient.

Definition URL_Query (u : URL) : gmap string (list string) :=
  ParseQuery (RawQuery u).

Definition gooidc_Nonce (nonce : string) : string * string := ("nonce", nonce).

Definition randomkey_Random16 : M (result Key) :=
  emit (EvRandom16 (random16 env)) ;;; M_ret (random16 env).

Definition time_Now : M Time :=
  emit (EvNow (now env)) ;;; M_ret (now env).

Definition oauthConfig_Exchange (code : string) : M (result Token) :=
  emit (EvExchange code (exchange env code)) ;;; M_ret (exchange env code).

Definition oidcVerifier_Verify (rawIDToken : string) : M (result IDToken) :=
  emit (EvVerify rawIDToken (verify env rawIDToken)) ;;;
  M_ret (verify env rawIDToken).

Definition call_OnLogin (hook : Request → option Token → IDToken → option error)
    (r : Request) (tok : option Token) (idToken : IDToken) : M (option error) :=
  emit (EvOnLogin tok idToken (hook r tok idToken)) ;;;
  M_ret (hook r tok idToken).

Definition logger (lvl : logLevel) (fields : list logField) (msg : string) : M unit :=
  emit (EvLog lvl fields msg).

Definition http_Error (msg : string) (code : Z) : M unit :=
  emit (EvHttpError msg code).

Definition http_Redirect (url : string) (code : Z) : M unit :=
  emit (EvRedirect url code).

Definition http_SetCookie (c : Cookie) : M unit :=
  emit (EvSetCookie c).

(** [Auth]: forward the browser to the authorization endpoint. *)
Definition Auth (r : Request) : M unit :=
  let nonce := RawQuery (ReqURL r) in
  res <- randomkey_Random16 ;;
  match res with
  | Err err =>
      logger LvlError [FErr err] "can't create state parameter" ;;;
      http_Error "can't create state parameter" StatusInternalServerError ;;;
      exit
  | Ok key =>
      let state := Base64 key in
      t <- time_Now ;;
      http_SetCookie {|
        Name := "state";
        Value := state;
        Path := DefaultCookiePath;
        Expires := Some (time_Add t (DefaultLoginTimeout * Second));
        MaxAge := DefaultLoginTimeout;
        Secure := true;
        HttpOnly := true
      |} ;;;
      let rawIDToken := Values_Get (URL_Query (ReqURL r)) "token" in
      if decide (rawIDToken ≠ "") then
        if negb (allowDevLogin client) then
          logger LvlDebug [] "dev token login not allowed" ;;;
          http_Error "access denied" StatusForbidden ;;;
          exit
        else
          logger LvlDebug
            [FStr "state" state; FBool "withNonce" (bool_decide (0 < String.length nonce)%nat)]
            "logging in with dev token, redirect to callback" ;;;
          http_Redirect
            (RedirectURL (oauthConfig client) ++ "?token=" ++ rawIDToken
               ++ "&state=" ++ state) StatusFound ;;;
          exit
      else
        logger LvlDebug
          [FStr "state" state; FBool "withNonce" (bool_decide (0 < String.length nonce)%nat)]
          "redirect to IdP" ;;;
        http_Redirect
          (AuthCodeURL (oauthConfig client) state [gooidc_Nonce nonce]) StatusFound
  end.

(** [Callback]: take the callback from the identity provider. *)
Definition Callback (r : Request) : M unit :=
  match Request_Cookie r "state" with
  | Err _ =>
      logger LvlDebug [] "no state cookie" ;;;
      http_Error "login session expired" StatusBadRequest ;;;
      exit
  | Ok cookie =>
      if decide (Values_Get (URL_Query (ReqURL r)) "state" ≠ Value cookie) then
        logger LvlDebug
          [FStr "param" (Values_Get (URL_Query (ReqURL r)) "state");
           FStr "cookie" (Value cookie)]
          "state did not match" ;;;
        http_Error "state did not match" StatusBadRequest ;;;
        exit
      else
        let rawIDToken := Values_Get (URL_Query (ReqURL r)) "token" in
        acquired <-
          (if decide (rawIDToken ≠ "") then
             if negb (allowDevLogin client) then
               logger LvlDebug [] "dev token login not allowed" ;;;
               http_Error "access denied" StatusForbidden ;;;
               exit
             else M_ret (rawIDToken, None)
           else
             res <- oauthConfig_Exchange (Values_Get (URL_Query (ReqURL r)) "code") ;;
             match res with
             | Err err =>
                 logger LvlError [FErr err] "token exchange failed" ;;;
                 http_Error "failed to exchange code for token"
                   StatusInternalServerError ;;;
                 exit
             | Ok tok =>
                 let '(rawIDToken, ok) := Token_Extra_string tok "id_token" in
                 if negb ok then
                   logger LvlError [] "id_token missing from IdP response" ;;;
                   http_Error "IdP did not sent an id token"
                     StatusInternalServerError ;;;
                   exit
                 else M_ret (rawIDToken, Some tok)
             end) ;;
        let rawIDToken := fst acquired in
        let oauth2Token := snd acquired in
        res <- oidcVerifier_Verify rawIDToken ;;
        match res with
        | Err err =>
            logger LvlError [FErr err] "id token does not verify" ;;;
            http_Error "id token verification failed" StatusInternalServerError ;;;
            exit
        | Ok idToken =>
            logger LvlInfo [FStr "sub" (Subject idToken)] "login" ;;;
            match OnLogin client with
            | Some hook =>
                res <- call_OnLogin hook r oauth2Token idToken ;;
                match res with
                | Some err =>
                    if decide (err = ErrMissingCSCUserName) then
                      http_Redirect (frontendUrl client ++ "?missingcsc=1")
                        StatusFound ;;;
                      exit
                    else if decide (err = ErrMissingOrganization) then
                      http_Redirect (frontendUrl client ++ "?missingorg=1")
                        StatusFound ;;;
                      exit
                    else
                      logger LvlError [FErr err; FStr "sub" (Subject idToken)]
                        "OnLogin callback failed" ;;;
                      http_Error "Login failed" StatusInternalServerError ;;;
                      exit
                | None => M_ret tt
                end
            | None => M_ret tt
            end ;;;
            http_Redirect (frontendUrl client) StatusFound
        end
  end.

(** [idToken.Claims(&out.IDTokenClaims)]. *)
Definition IDToken_Claims (i : IDToken) : result (option string) :=
  match claims i with
  | None => Err (ErrOther "oidc: claims not set")
  | Some c => json_Unmarshal c
  end.

Definition http_StatusText (code : Z) : string :=
  if decide (code = StatusInternalServerError) then "Internal Server Error" else "".

(** [DumpToken]: write the token and the claims as indented JSON. *)
Definition DumpToken (token : option loc) (idToken : option IDToken) : M unit :=
  t <- load token ;;
  (if decide (AccessToken t ≠ "") then store token (set_AccessToken "***")
   else M_ret tt) ;;;
  t <- load token ;;
  (if decide (RefreshToken t ≠ "") then store token (set_RefreshToken "***")
   else M_ret tt) ;;;
  match idToken with
  | None => panic
  | Some i =>
      match IDToken_Claims i with
      | Err err =>
          logger LvlError [FErr err] "failed to extract claims" ;;;
          http_Error (error_Error err) StatusInternalServerError ;;;
          exit
      | Ok rawClaims =>
          t <- load token ;;
          match json_MarshalIndent (mkDumpOut t rawClaims) with
          | Err err =>
              logger LvlError [FErr err] "failed to marshal json response" ;;;
              http_Error (http_StatusText StatusInternalServerError)
                StatusInternalServerError ;;;
              exit
          | Ok data =>
              emit (EvHeaderSet "Content-Type" "application/json") ;;;
              emit (EvWrite data) ;;;
              exit
          end
      end
  end.

(** What [DumpToken] runs after the censoring, on the token it then finds in
    the store. *)
Definition DumpToken_render (t : Token) (idToken : option IDToken) : M unit :=
  match idToken with
  | None => panic
  | Some i =>
      match IDToken_Claims i with
      | Err err =>
          logger LvlError [FErr err] "failed to extract claims" ;;;
          http_Error (error_Error err) StatusInternalServerError ;;;
          exit
      | Ok rawClaims =>
          match json_MarshalIndent (mkDumpOut t rawClaims) with
          | Err err =>
              logger LvlError [FErr err] "failed to marshal json response" ;;;
              http_Error (http_StatusText StatusInternalServerError)
                StatusInternalServerError ;;;
              exit
          | Ok data =>
              emit (EvHeaderSet "Content-Type" "application/json") ;;;
              emit (EvWrite data) ;;;
              exit
          end
      end
  end.

End Handlers.

(** ** Reading traces *)

Definition isExchange (e : event) : bool :=
  match e with EvExchange _ _ => true | _ => false end.

Definition isVerify (e : event) : bool :=
  match e with EvVerify _ _ => true | _ => false end.

Definition isOnLogin (e : event) : bool :=
  match e with EvOnLogin _ _ _ => true | _ => false end.

Definition isRedirect (e : event) : bool :=
  match e with EvRedirect _ _ => true | _ => false end.

Definition isSetCookie (e : event) : bool :=
  match e with EvSetCookie _ => true | _ => false end.

(** The two kinds of call that reach the identity provider's side. *)
Definition isIdPCall (e : event) : bool := isExchange e || isVerify e.

(** ** Stand-ins for library functions, used to run the handlers *)

(** [strings.Split] on a one-byte separator. *)
Fixpoint split (sep : ascii) (s : string) : list string :=
  match s with
  | EmptyString => [""]
  | String c s' =>
      if decide (c = sep) then "" :: split sep s'
      else match split sep s' with
           | x :: xs => String c x :: xs
           | [] => [String c ""]
           end
  end.

(** [strings.Cut] on a one-byte separator. *)
Fixpoint cut (sep : ascii) (s : string) : string * string :=
  match s with
  | EmptyString => ("", "")
  | String c s' =>
      if decide (c = sep) then ("", s')
      else let '(k, v) := cut sep s' in (String c k, v)
  end.

(** [url.ParseQuery] on query strings free of percent escapes, plus signs
    and semicolons, where unescaping changes nothing. *)
Definition ParseQuery_plain (query : string) : gmap string (list string) :=
  foldl (λ (m : gmap string (list string)) part,
           if decide (part = "") then m
           else let '(k, v) := cut "="%char part in
                <[k := (default [] (m !! k) ++ [v])%list]> m)
        ∅ (split "&"%char query).

(** Keys written as their encoded text. *)
Definition Base64_plain (k : Key) : string := k.

(** The shape of [oauth2.Config.AuthCodeURL] for a fixed endpoint. *)
Definition AuthCodeURL_plain (c : Config) (state : string)
    (opts : list (string * string)) : string :=
  foldl (λ u (kv : string * string), u ++ "&" ++ fst kv ++ "=" ++ snd kv)
        ("https://idp.example/authorize?client_id=" ++ ClientID c
           ++ "&redirect_uri=" ++ RedirectURL c ++ "&response_type=code&state=" ++ state)
        opts.

Definition exampleConfig : Config :=
  mkConfig "qvain" "secret" "https://qvain.example/api/auth/cb" ["openid"; "profile"; "email"].

Definition exampleIDToken : IDToken :=
  mkIDToken "https://idp.example" ["qvain"] "alice" 2000000000000000000 (Some "{}").

Definition exampleToken : Token :=
  mkToken "at-1234" "Bearer" "rt-5678" 2000000000000000000
    {[ "id_token" := XString "good.jwt" ]}.

(** An identity provider that knows one code and verifies one token. *)
Definition exampleEnv (rnd : result Key) (t : Time) : Env :=
  mkEnv rnd t
    (λ code, if decide (code = "c0de") then Ok exampleToken
             else Err (ErrOther "oauth2: cannot fetch token"))
    (λ rawIDToken, if decide (rawIDToken = "good.jwt") then Ok exampleIDToken
                   else Err (ErrOther "oidc: malformed jwt")).

Definition exampleClient (dev : bool)
    (hook : option (Request → option Token → IDToken → option error)) : OidcClient :=
  mkClient "fairdata" "qvain" "https://qvain.example/" "foobar" dev exampleConfig hook.

(** A hook that finds no home organization for the user. *)
Definition hookMissingOrganization (r : Request) (tok : option Token)
    (idToken : IDToken) : option error :=
  Some ErrMissingOrganization.

Definition stateCookie (v : string) : Cookie :=
  mkCookie "state" v "" None 0 false false.

Definition exampleRequest (cookies : list Cookie) (query : string) : Request :=
  mkRequest cookies (mkURL query).

(** [strings.Contains]. *)
Fixpoint strings_Contains (s substr : string) : bool :=
  if String.prefix substr s then true
  else match s with
       | EmptyString => false
       | String _ s' => strings_Contains s' substr
       end.

Definition hexDigit (n : N) : ascii :=
  ascii_of_N (if (n <? 10)%N then 48 + n else 87 + n).

(** One byte of a string as [encoding/json] writes it with HTML escaping
    on.  Bytes above 0x7f are copied, as they are in valid UTF-8 text
    without U+2028 and U+2029. *)
Definition json_escapeByte (c : ascii) : string :=
  let n := N_of_ascii c in
  if decide (n = 34 ∨ n = 92)%N then String "\"%char (String c "")
  else if decide (n = 10)%N then "\n"
  else if decide (n = 13)%N then "\r"
  else if decide (n = 9)%N then "\t"
  else if decide (n < 32 ∨ n = 38 ∨ n = 60 ∨ n = 62)%N then
    "\u00" ++ String (hexDigit (n / 16)) (String (hexDigit (n mod 16)) "")
  else String c "".

Fixpoint json_escape (s : string) : string :=
  match s with
  | EmptyString => ""
  | String c s' => json_escapeByte c ++ json_escape s'
  end.

Definition json_string (s : string) : string :=
  String "034"%char (json_escape s ++ String "034"%char "").

Definition newline : string := String "010"%char "".

(** [json.MarshalIndent(out, "", "    ")] on the struct [DumpToken] builds,
    given the RFC 3339 text of a time and the re-indented text of a raw
    message: the exported fields of [oauth2.Token] under their tags, the
    two [omitempty] strings left out when empty. *)
Definition json_MarshalIndent_model (formatTime : Time → string)
    (indentRaw : string → string) (out : DumpOut) : result string :=
  let t := OAuth2Token out in
  let field (k v : string) := "        " ++ json_string k ++ ": " ++ v in
  let sep := "," ++ newline in
  Ok ("{" ++ newline
      ++ "    " ++ json_string "OAuth2Token" ++ ": {" ++ newline
      ++ field "access_token" (json_string (AccessToken t)) ++ sep
      ++ (if decide (TokenType t = "") then ""
          else field "token_type" (json_string (TokenType t)) ++ sep)
      ++ (if decide (RefreshToken t = "") then ""
          else field "refresh_token" (json_string (RefreshToken t)) ++ sep)
      ++ field "expiry" (json_string (formatTime (Expiry t))) ++ newline
      ++ "    }," ++ newline
      ++ "    " ++ json_string "IDTokenClaims" ++ ": "
      ++ match IDTokenClaims out with
         | Some c => indentRaw c
         | None => "null"
         end ++ newline
      ++ "}").

(** [json.Unmarshal] into a [*json.RawMessage], on well-formed input other
    than [null]: the bytes themselves. *)
Definition json_Unmarshal_raw (data : string) : result (option string) :=
  Ok (Some data).

(** The one expiry of the examples, 2 * 10^9 seconds after the epoch, in UTC. *)
Definition formatTime_example (t : Time) : string := "2033-05-18T03:33:20Z".

(** An empty object is its own indented form. *)
Definition indentRaw_example (c : string) : string := c.

Definition json_MarshalIndent_example : DumpOut → result string :=
  json_MarshalIndent_model formatTime_example indentRaw_example.

(** ** Building a client: [NewOidcClient] and its options *)

(** [gooidc.Config], the settings the verifier reads. *)
Record gooidc_Config := mk_gooidc_Config {
  verifier_ClientID : string;
  SkipExpiryCheck : bool
}.

(** [oauth2.Endpoint]. *)
Record Endpoint := mkEndpoint {
  AuthURL : string;
  TokenURL : string
}.

(** [gooidc.Provider], as far as the constructor reads it. *)
Record Provider := mkProvider {
  provider_issuer : string;
  provider_Endpoint : Endpoint
}.

(** The client object under construction: the fields the handlers read,
    and with them the provider, the verifier's settings and the endpoint
    of the OAuth2 configuration. *)
Record ClientObject := mkClientObject {
  handlerFields : OidcClient;
  oidcProvider : Provider;
  oidcConfig : gooidc_Config;
  oauthEndpoint : Endpoint
}.

(** [OidcClientOption]: a function that writes through the client pointer. *)
Definition OidcClientOption : Type := ClientObject → ClientObject.

Definition set_allowDevLogin (val : bool) (c : OidcClient) : OidcClient :=
  mkClient (ClientName c) (clientID c) (frontendUrl c) (state c) val
    (oauthConfig c) (OnLogin c).

Definition WithAllowDevLogin (val : bool) : OidcClientOption :=
  λ client, mkClientObject (set_allowDevLogin val (handlerFields client))
              (oidcProvider client) (oidcConfig client) (oauthEndpoint client).

Definition WithSkipExpiryCheck (val : bool) : OidcClientOption :=
  λ client, mkClientObject (handlerFields client) (oidcProvider client)
              (mk_gooidc_Config (verifier_ClientID (oidcConfig client)) val)
              (oauthEndpoint client).

Definition gooidc_ScopeOpenID : string := "openid".

Section Construction.

(** Discovery at the provider's URL. *)
Variable gooidc_NewProvider : string → result Provider.

Definition NewOidcClient (name id secret redirectUrl providerUrl frontendUrl : string)
    (options : list OidcClientOption) : result ClientObject :=
  match gooidc_NewProvider providerUrl with
  | Err err => Err err
  | Ok provider =>
      let client :=
        mkClientObject
          (mkClient name id frontendUrl "foobar" false
             (mkConfig id secret redirectUrl [gooidc_ScopeOpenID; "profile"; "email"])
             None)
          provider
          (mk_gooidc_Config id false)
          (provider_Endpoint provider) in
      Ok (foldl (λ client (option : OidcClientOption), option client) client options)
  end.

End Construction.

(** ** The dataset filters: [internal/psql/filters.go] *)

(** The zero [time.Time], the first instant of year 1, in nanoseconds from
    the Unix epoch. *)
Definition zeroTime : Time := -62135596800 * 1000000000.

Definition time_IsZero (t : Time) : bool := bool_decide (t = zeroTime).

Definition minDuration : Duration := - 2 ^ 63.
Definition maxDuration : Duration := 2 ^ 63 - 1.

(** [t.Sub(u)], which saturates at the ends of [time.Duration]. *)
Definition time_Sub (t u : Time) : Duration :=
  if decide (t - u < minDuration) then minDuration
  else if decide (maxDuration < t - u) then maxDuration
  else t - u.

Definition Minute : Duration := 60 * Second.
Definition Hour : Duration := 60 * Minute.

(** [strings.Replace(s, old, new, -1)] for a one-byte [old], as both calls
    of the package have it. *)
Fixpoint strings_Replace (s : string) (old : ascii) (new : string) : string :=
  match s with
  | EmptyString => ""
  | String c s' =>
      (if decide (c = old) then new else String c "") ++ strings_Replace s' old new
  end.

(** [strconv.Itoa]. *)
Definition strconv_Itoa (i : Z) : string := NilZero.string_of_int (Z.to_int i).

Definition isDigit (c : ascii) : bool :=
  ((48 <=? N_of_ascii c) && (N_of_ascii c <=? 57))%N.

(** The regular expression [[\+-]\d\d:\d\d] against a whole string. *)
Definition isOffset (s : string) : bool :=
  match s with
  | String sg (String h1 (String h2 (String c (String m1 (String m2 EmptyString))))) =>
      (bool_decide (sg = "+"%char) || bool_decide (sg = "-"%char))
      && isDigit h1 && isDigit h2 && bool_decide (c = ":"%char)
      && isDigit m1 && isDigit m2
  | _ => false
  end.

(** [TimeZoneRegex.MatchString], for [(Z|([\+-]\d\d:\d\d))$]: some suffix of
    the string is [Z] or an offset. *)
Fixpoint TimeZoneRegex_MatchString (s : string) : bool :=
  match s with
  | EmptyString => false
  | String _ s' =>
      bool_decide (s = "Z") || isOffset s || TimeZoneRegex_MatchString s'
  end.

Module psql.

Local Abbreviation time_Time := Time.

Definition CompareEq : Z := 0.
Definition CompareLe : Z := 1.
Definition CompareGe : Z := 2.
Definition CompareLt : Z := 3.
Definition CompareGt : Z := 4.

Definition ComparisonSuffixes : gmap string Z :=
  <["" := CompareEq]> (<["_eq" := CompareEq]> (<["_le" := CompareLe]>
    (<["_ge" := CompareGe]> (<["_lt" := CompareLt]> (<["_gt" := CompareGt]> ∅))))).

(** Indexing a Go map: the zero value for a missing key. *)
Definition ComparisonSuffixes_at (suffix : string) : Z :=
  default 0 (ComparisonSuffixes !! suffix).

Record TimeFilter := mkTimeFilter {
  Precision : Duration;
  Time : time_Time;
  Comparison : Z
}.

Definition Start (t : TimeFilter) : time_Time := Time t.

Definition End (t : TimeFilter) : time_Time := time_Add (Time t) (Precision t).

Definition IsZero (t : TimeFilter) : bool := time_IsZero (Time t).

Section Parsing.

(** [time.ParseInLocation(layout, value, time.Local)] and [t.AddDate]. *)
Variable time_ParseInLocation : string → string → time_Time * option error.
Variable time_AddDate : time_Time → Z → Z → Z → time_Time.

Definition ParseTimeFilter (suffix timeString : string) : TimeFilter :=
  let comparison := ComparisonSuffixes_at suffix in
  let str := strings_Replace timeString " "%char "+" in
  let tz := if TimeZoneRegex_MatchString str then "Z07:00" else "" in
  let '(t, err) := time_ParseInLocation ("2006" ++ tz) str in
  if decide (err = None) then
    mkTimeFilter (time_Sub (time_AddDate t 1 0 0) t) t comparison
  else
  let '(t, err) := time_ParseInLocation ("2006-01" ++ tz) str in
  if decide (err = None) then
    mkTimeFilter (time_Sub (time_AddDate t 0 1 0) t) t comparison
  else
  let '(t, err) := time_ParseInLocation ("2006-01-02" ++ tz) str in
  if decide (err = None) then mkTimeFilter (Hour * 24) t comparison
  else
  let '(t, err) := time_ParseInLocation ("2006-01-02T15" ++ tz) str in
  if decide (err = None) then mkTimeFilter Hour t comparison
  else
  let '(t, err) := time_ParseInLocation ("2006-01-02T15:04" ++ tz) str in
  if decide (err = None) then mkTimeFilter Minute t comparison
  else
  let '(t, err) := time_ParseInLocation ("2006-01-02T15:04:05" ++ tz) str in
  if decide (err = None) then mkTimeFilter Second t comparison
  else mkTimeFilter 0 t comparison.

End Parsing.

(** A value passed as a query argument: a string or a time. *)
Inductive sqlArg :=
| ArgString (s : string)
| ArgTime (t : time_Time).

Record WhereBuilder := mkWhereBuilder {
  conditions : list string;
  args : list sqlArg
}.

Definition NewWhereBuilder : WhereBuilder := mkWhereBuilder [] [].

(** [addArg]: the builder with the argument appended, and its placeholder. *)
Definition addArg (w : WhereBuilder) (param : sqlArg) : WhereBuilder * string :=
  let w' := mkWhereBuilder (conditions w) (args w ++ [param]) in
  (w', "$" ++ strconv_Itoa (Z.of_nat (length (args w')))).

Definition Where (w : WhereBuilder) : string * list sqlArg :=
  if decide (length (conditions w) = 0%nat) then ("", [])
  else ("WHERE " ++ String.concat " AND " (conditions w), args w).

Section Printing.

(** [fmt.Sprintf] on string operands. *)
Variable fmt_Sprintf : string → list string → string.

Definition cprintf (w : WhereBuilder) (format : string) (a : list string) : WhereBuilder :=
  mkWhereBuilder (conditions w ++ [fmt_Sprintf format a]) (args w).

Definition MaybeAdd (w : WhereBuilder) (enabled : bool) (query : string) : WhereBuilder :=
  if enabled then cprintf w query [] else w.

Definition MaybeAddString (w : WhereBuilder) (s query : string) : WhereBuilder :=
  if decide (s ≠ "") then
    let '(w, placeholder) := addArg w (ArgString s) in
    cprintf w (strings_Replace query "$"%char placeholder) []
  else w.

Definition MaybeAddTimeFilter (w : WhereBuilder) (filter : TimeFilter)
    (query : string) : WhereBuilder :=
  if negb (IsZero filter) then
    if decide (Comparison filter = CompareEq) then
      let '(w, p) := addArg w (ArgTime (End filter)) in
      let w := cprintf w "%s < %s" [query; p] in
      let '(w, p) := addArg w (ArgTime (Start filter)) in
      cprintf w "%s >= %s" [query; p]
    else if decide (Comparison filter = CompareLe) then
      let '(w, p) := addArg w (ArgTime (End filter)) in
      cprintf w "%s < %s" [query; p]
    else if decide (Comparison filter = CompareGe) then
      let '(w, p) := addArg w (ArgTime (Start filter)) in
      cprintf w "%s >= %s" [query; p]
    else if decide (Comparison filter = CompareLt) then
      let '(w, p) := addArg w (ArgTime (Start filter)) in
      cprintf w "%s < %s" [query; p]
    else if decide (Comparison filter = CompareGt) then
      let '(w, p) := addArg w (ArgTime (End filter)) in
      cprintf w "%s >= %s" [query; p]
    else w
  else w.

End Printing.

End psql.

(** ** Further readings of traces and stand-ins *)

(** The calls that answer the request. *)
Definition isResponse (e : event) : bool :=
  match e with
  | EvHttpError _ _ | EvRedirect _ _ => true
  | _ => false
  end.

Definition isWrite (e : event) : bool :=
  match e with EvWrite _ | EvHeaderSet _ _ => true | _ => false end.

(** [fmt.Sprintf] on formats whose only verbs are [%s] and [%%], with string
    operands. *)
Fixpoint Sprintf_plain (format : string) (a : list string) : string :=
  match format with
  | EmptyString => ""
  | String c rest =>
      if Ascii.eqb c "%" then
        match rest with
        | String v rest' =>
            if Ascii.eqb v "s" then
              match a with
              | x :: a' => x ++ Sprintf_plain rest' a'
              | [] => "%!s(MISSING)" ++ Sprintf_plain rest' []
              end
            else if Ascii.eqb v "%" then "%" ++ Sprintf_plain rest' a
            else String c (String v (Sprintf_plain rest' a))
        | EmptyString => "%!(NOVERB)"
        end
      else String c (Sprintf_plain rest a)
  end.

(** A provider whose discovery document is served at one URL only. *)
Definition exampleProvider : Provider :=
  mkProvider "https://idp.example"
    (mkEndpoint "https://idp.example/authorize" "https://idp.example/token").

Definition NewProvider_example (providerUrl : string) : result Provider :=
  if decide (providerUrl = "https://idp.example") then Ok exampleProvider
  else Err (ErrOther "oidc: discovery failed").

(** A parser that knows one year and one day, in UTC, and gives the zero
    time with its error as [time.ParseInLocation] does. *)
Definition ParseInLocation_example (layout value : string) : Time * option error :=
  if decide (layout = "2006" ∧ value = "2019") then (1546300800000000000, None)
  else if decide (layout = "2006-01-02" ∧ value = "2019-08-27")
  then (1566864000000000000, None)
  else (zeroTime, Some (ErrOther "parsing time: cannot parse")).

Definition AddDate_example (t : Time) (years months days : Z) : Time :=
  t + years * 365 * 24 * Hour + months * 31 * 24 * Hour + days * 24 * Hour.

(** The two options the package offers. *)
Inductive stockOption : OidcClientOption → Prop :=
| stock_AllowDevLogin (val : bool) : stockOption (WithAllowDevLogin val)
| stock_SkipExpiryCheck (val : bool) : stockOption (WithSkipExpiryCheck val).

(** An option that does not switch developer login on. *)
Inductive keepsDevLoginOff : OidcClientOption → Prop :=
| keeps_AllowDevLogin_false : keepsDevLoginOff (WithAllowDevLogin false)
| keeps_SkipExpiryCheck (val : bool) : keepsDevLoginOff (WithSkipExpiryCheck val).

(** The builders that the exported operations produce from a new one. *)
Inductive built (fmt_Sprintf : string → list string → string) :
    psql.WhereBuilder → Prop :=
| built_New : built fmt_Sprintf psql.NewWhereBuilder
| built_MaybeAdd w enabled query :
    built fmt_Sprintf w → built fmt_Sprintf (psql.MaybeAdd fmt_Sprintf w enabled query)
| built_MaybeAddString w s query :
    built fmt_Sprintf w → built fmt_Sprintf (psql.MaybeAddString fmt_Sprintf w s query)
| built_MaybeAddTimeFilter w filter query :
    built fmt_Sprintf w →
    built fmt_Sprintf (psql.MaybeAddTimeFilter fmt_Sprintf w filter query).

(** A token bundle without an identity token, and a provider that hands
    it out for every code. *)
Definition exampleTokenBare : Token :=
  mkToken "at-1234" "Bearer" "" 2000000000000000000 ∅.

Definition exampleEnvBare : Env :=
  mkEnv (Ok "k3y") 0 (λ code, Ok exampleTokenBare)
    (λ rawIDToken, Err (ErrOther "oidc: malformed jwt")).

(** ** Four statements of the design document, as it words them *)

(** Developer login on: every callback with a non-empty [token] that does
    not verify ends in the verification failure and reaches neither the hook
    nor a redirect. *)
Definition dev_token_unverified_as_stated
    (ParseQuery : string → gmap string (list string)) : Prop :=
  ∀ (env : Env) (client : OidcClient) (r : Request) (err : error),
    allowDevLogin client = true →
    Values_Get (URL_Query ParseQuery (ReqURL r)) "token" ≠ "" →
    verify env (Values_Get (URL_Query ParseQuery (ReqURL r)) "token") = Err err →
    last (run (Callback ParseQuery env client r))
    = Some (EvHttpError "id token verification failed" 500)
    ∧ ∀ e, e ∈ run (Callback ParseQuery env client r) →
           isOnLogin e = false ∧ isRedirect e = false.

(** A state cookie that [Auth] issued and that comes back after its expiry
    time is refused like a mismatch, also when it equals the [state]
    parameter. *)
Definition expired_state_as_stated
    (ParseQuery : string → gmap string (list string)) (Base64 : Key → string)
    (AuthCodeURL : Config → string → list (string * string) → string) : Prop :=
  ∀ (env0 env : Env) (client : OidcClient) (r0 r : Request)
    (issued cookie : Cookie) (expires : Time),
    EvSetCookie issued ∈ run (Auth ParseQuery Base64 AuthCodeURL env0 client r0) →
    Expires issued = Some expires →
    Request_Cookie r "state" = Ok cookie →
    Value cookie = Value issued →
    expires < now env →
    run (Callback ParseQuery env client r)
    = [EvLog LvlDebug
         [FStr "param" (Values_Get (URL_Query ParseQuery (ReqURL r)) "state");
          FStr "cookie" (Value cookie)] "state did not match";
       EvHttpError "state did not match" 400].

(** Developer login off: every request with a non-empty [token] is answered
    403 on [Auth], and on [Callback] once its state check has passed, and
    verification is not reached. *)
Definition dev_login_disabled_as_stated
    (ParseQuery : string → gmap string (list string)) (Base64 : Key → string)
    (AuthCodeURL : Config → string → list (string * string) → string) : Prop :=
  ∀ (env : Env) (client : OidcClient) (r : Request),
    allowDevLogin client = false →
    Values_Get (URL_Query ParseQuery (ReqURL r)) "token" ≠ "" →
    (last (run (Auth ParseQuery Base64 AuthCodeURL env client r))
     = Some (EvHttpError "access denied" 403)
     ∧ ∀ e, e ∈ run (Auth ParseQuery Base64 AuthCodeURL env client r) →
            isVerify e = false)
    ∧ (∀ cookie, Request_Cookie r "state" = Ok cookie →
         Values_Get (URL_Query ParseQuery (ReqURL r)) "state" = Value cookie →
         last (run (Callback ParseQuery env client r))
         = Some (EvHttpError "access denied" 403)
         ∧ ∀ e, e ∈ run (Callback ParseQuery env client r) → isVerify e = false).

(** The document [DumpToken] writes holds a non-empty AccessToken or
    RefreshToken of its input nowhere. *)
Definition dump_hides_secrets_as_stated
    (json_Unmarshal : string → result (option string))
    (json_MarshalIndent : DumpOut → result string) : Prop :=
  ∀ (h : gmap loc Token) (l : loc) (t : Token) (idToken : option IDToken)
    (data : string),
    h !! l = Some t →
    EvWrite data
      ∈ trace (snd (DumpToken json_Unmarshal json_MarshalIndent (Some l) idToken
                      (initState h))) →
    (AccessToken t ≠ "" → strings_Contains data (AccessToken t) = false)
    ∧ (RefreshToken t ≠ "" → strings_Contains data (RefreshToken t) = false).

(** ** Running the handlers on the examples *)

Example callback_standard_path :
  run (Callback ParseQuery_plain (exampleEnv (Ok "k3y") 0) (exampleClient false None)
         (exampleRequest [stateCookie "abc"] "state=abc&code=c0de"))
  = [EvExchange "c0de" (Ok exampleToken);
     EvVerify "good.jwt" (Ok exampleIDToken);
     EvLog LvlInfo [FStr "sub" "alice"] "login";
     EvRedirect "https://qvain.example/" 302].
Proof. reflexivity. Qed.

Example callback_bad_code :
  run (Callback ParseQuery_plain (exampleEnv (Ok "k3y") 0) (exampleClient false None)
         (exampleRequest [stateCookie "abc"] "state=abc&code=nope"))
  = [EvExchange "nope" (Err (ErrOther "oauth2: cannot fetch token"));
     EvLog LvlError [FErr (ErrOther "oauth2: cannot fetch token")] "token exchange failed";
     EvHttpError "failed to exchange code for token" 500].
Proof. reflexivity. Qed.

Example auth_standard_path :
  run (Auth ParseQuery_plain Base64_plain AuthCodeURL_plain (exampleEnv (Ok "k3y") 7)
         (exampleClient false None) (exampleRequest [] "next=home"))
  = [EvRandom16 (Ok "k3y");
     EvNow 7;
     EvSetCookie (mkCookie "state" "k3y" "/api/auth" (Some 600000000007) 600 true true);
     EvLog LvlDebug [FStr "state" "k3y"; FBool "withNonce" true] "redirect to IdP";
     EvRedirect
       "https://idp.example/authorize?client_id=qvain&redirect_uri=https://qvain.example/api/auth/cb&response_type=code&state=k3y&nonce=next=home"
       302].
Proof. reflexivity. Qed.

(** ** Properties of [Callback] *)

(** Membership in a trace that has been computed down to its events. *)
Ltac trace_mem H :=
  repeat (apply elem_of_cons in H as [H|H]; [try (subst; discriminate)|]);
  try (apply elem_of_nil in H; contradiction).

(** Symbolic execution of a handler: unfold the monad, then split on each
    test the code makes, in program order. *)
Ltac unfold_handler :=
  unfold run, Callback, Auth, randomkey_Random16, time_Now, oauthConfig_Exchange,
    oidcVerifier_Verify, call_OnLogin, logger, http_Error, http_Redirect,
    http_SetCookie, M_bind, M_ret, emit, exit, initState.

Ltac handler_cases :=
  unfold_handler;
  try match goal with
      | c : OidcClient |- _ => destruct (allowDevLogin c) eqn:?
      end;
  repeat (cbn; first [case_decide | case_match]; simplify_eq);
  cbn.

Section CallbackProperties.

Variable ParseQuery : string → gmap string (list string).
Variable env : Env.
Variable client : OidcClient.

Local Abbreviation query r := (URL_Query ParseQuery (ReqURL r)).
Local Abbreviation callback r := (run (Callback ParseQuery env client r)).

(** [C5]: a callback without a state cookie is answered 400 "login session
    expired", whatever its query string holds. *)
Theorem callback_no_cookie (r : Request) (err : error) :
  Request_Cookie r "state" = Err err →
  callback r = [EvLog LvlDebug [] "no state cookie";
                EvHttpError "login session expired" 400].
Proof.
  intros Hc. unfold run, Callback. rewrite Hc. reflexivity.
Qed.

(** [C1]: a call to the identity provider (code exchange or verification)
    appears in a callback's trace only if the state cookie was present and
    equal to the [state] parameter; and when the two differ the handler
    answers 400 "state did not match" and makes no such call. *)
Theorem callback_state_check_first (r : Request) :
  (∀ e, e ∈ callback r → isIdPCall e = true →
     ∃ cookie, Request_Cookie r "state" = Ok cookie
               ∧ Values_Get (query r) "state" = Value cookie)
  ∧ (∀ cookie, Request_Cookie r "state" = Ok cookie →
       Values_Get (query r) "state" ≠ Value cookie →
       callback r
       = [EvLog LvlDebug [FStr "param" (Values_Get (query r) "state");
                          FStr "cookie" (Value cookie)] "state did not match";
          EvHttpError "state did not match" 400]
       ∧ ∀ e, e ∈ callback r → isIdPCall e = false).
Proof.
  split.
  - intros e Hin He. revert Hin. unfold run, Callback.
    destruct (Request_Cookie r "state") as [cookie|err] eqn:Hc.
    + destruct (decide (Values_Get (query r) "state" ≠ Value cookie)) as [Hne|Heq].
      * cbn. intros Hin. trace_mem Hin.
      * intros _. exists cookie. split; [reflexivity|].
        destruct (decide (Values_Get (query r) "state" = Value cookie));
          [assumption|contradiction].
    + cbn. intros Hin. trace_mem Hin.
  - intros cookie Hc Hne.
    assert (callback r
            = [EvLog LvlDebug [FStr "param" (Values_Get (query r) "state");
                               FStr "cookie" (Value cookie)] "state did not match";
               EvHttpError "state did not match" 400]) as ->.
    { unfold run, Callback. rewrite Hc.
      destruct (decide _) as [_|Heq]; [reflexivity | contradiction]. }
    split; [reflexivity|].
    intros e Hin. trace_mem Hin; subst; reflexivity.
Qed.

(** [C9]: the state check is plain equality.  A present cookie with the
    empty value and an absent [state] parameter pass it, and the handler
    goes on to acquire a token: it exchanges the code, or takes the
    developer token to verification, or refuses the developer token. *)
Theorem callback_empty_state_accepted (r : Request) (cookie : Cookie) :
  Request_Cookie r "state" = Ok cookie →
  Value cookie = "" →
  query r !! "state" = None →
  Values_Get (query r) "state" = Value cookie
  ∧ (EvHttpError "state did not match" 400 ∉ callback r)
  ∧ (Values_Get (query r) "token" = "" →
       ∃ rest, callback r
               = EvExchange (Values_Get (query r) "code")
                   (exchange env (Values_Get (query r) "code")) :: rest)
  ∧ (Values_Get (query r) "token" ≠ "" → allowDevLogin client = true →
       ∃ rest, callback r
               = EvVerify (Values_Get (query r) "token")
                   (verify env (Values_Get (query r) "token")) :: rest)
  ∧ (Values_Get (query r) "token" ≠ "" → allowDevLogin client = false →
       callback r = [EvLog LvlDebug [] "dev token login not allowed";
                     EvHttpError "access denied" 403]).
Proof.
  intros Hc Hv Hq.
  assert (Values_Get (query r) "state" = Value cookie) as Heq.
  { unfold Values_Get. rewrite Hq, Hv. reflexivity. }
  split; [exact Heq|].
  split; [|split; [|split]].
  - intros Hin. revert Hin. handler_cases; intros Hin; trace_mem Hin.
  - intros Ht. handler_cases; eexists; reflexivity.
  - intros Ht Hdev. handler_cases; eexists; reflexivity.
  - intros Ht Hdev. handler_cases; reflexivity.
Qed.

(** [C2], as the code has it: with developer login on, a callback with a
    non-empty [token] that does not verify never exchanges a code, never
    calls the hook and never redirects; and when it passes the state check
    it is answered with the verification failure 500. *)
Theorem callback_dev_token_unverified (r : Request) (err : error) :
  allowDevLogin client = true →
  Values_Get (query r) "token" ≠ "" →
  verify env (Values_Get (query r) "token") = Err err →
  (∀ e, e ∈ callback r →
        isExchange e = false ∧ isOnLogin e = false ∧ isRedirect e = false)
  ∧ (∀ cookie, Request_Cookie r "state" = Ok cookie →
       Values_Get (query r) "state" = Value cookie →
       callback r
       = [EvVerify (Values_Get (query r) "token") (Err err);
          EvLog LvlError [FErr err] "id token does not verify";
          EvHttpError "id token verification failed" 500]).
Proof.
  intros Hdev Ht Hv. split.
  - intros e Hin. revert Hin.
    handler_cases; intros Hin; trace_mem Hin; subst; repeat split.
  - intros cookie Hc Heq. handler_cases; reflexivity.
Qed.

(** [C4]: once a token has verified, the handler logs the login, calls the
    hook, and answers by the hook's result: the missing-organization error
    gives a 302 to [frontendUrl ++ "?missingorg=1"], the missing-user-name
    error a 302 to [frontendUrl ++ "?missingcsc=1"], any other error a 500
    and no redirect, and no error a 302 to [frontendUrl] itself. *)
Theorem callback_hook_dispatch (r : Request)
    (hook : Request → option Token → IDToken → option error)
    (rawIDToken : string) (idToken : IDToken) :
  OnLogin client = Some hook →
  EvVerify rawIDToken (Ok idToken) ∈ callback r →
  ∃ pre tok post,
    callback r
    = (pre ++ EvVerify rawIDToken (Ok idToken)
           :: EvLog LvlInfo [FStr "sub" (Subject idToken)] "login"
           :: EvOnLogin tok idToken (hook r tok idToken)
           :: post)%list
    ∧ (∀ e, e ∈ pre → isRedirect e = false)
    ∧ (hook r tok idToken = Some ErrMissingOrganization →
         post = [EvRedirect (frontendUrl client ++ "?missingorg=1") 302])
    ∧ (hook r tok idToken = Some ErrMissingCSCUserName →
         post = [EvRedirect (frontendUrl client ++ "?missingcsc=1") 302])
    ∧ (∀ err, hook r tok idToken = Some err →
         err ≠ ErrMissingOrganization → err ≠ ErrMissingCSCUserName →
         post = [EvLog LvlError [FErr err; FStr "sub" (Subject idToken)]
                   "OnLogin callback failed";
                 EvHttpError "Login failed" 500])
    ∧ (hook r tok idToken = None →
         post = [EvRedirect (frontendUrl client) 302]).
Proof.
  intros Hhook Hin. revert Hin.
  handler_cases; intros Hin; trace_mem Hin; simplify_eq.
  all: match goal with
       | |- ∃ _ _ _, EvVerify _ _ :: _ :: EvOnLogin ?tok _ _ :: ?post = _ ∧ _ =>
           exists [], tok, post
       | |- ∃ _ _ _, ?e :: EvVerify _ _ :: _ :: EvOnLogin ?tok _ _ :: ?post = _ ∧ _ =>
           exists [e], tok, post
       end.
  all: match goal with H : _ = _ :> option error |- _ => rewrite H end.
  all: split; [reflexivity|].
  all: split; [intros e' He'; trace_mem He'; subst; reflexivity|].
  all: repeat split; intros; simplify_eq; reflexivity.
Qed.

End CallbackProperties.

(** ** Properties of [Auth] and of developer login *)

Section AuthProperties.

Variable ParseQuery : string → gmap string (list string).
Variable Base64 : Key → string.
Variable AuthCodeURL : Config → string → list (string * string) → string.
Variable env : Env.
Variable client : OidcClient.

Local Abbreviation query r := (URL_Query ParseQuery (ReqURL r)).
Local Abbreviation auth r := (run (Auth ParseQuery Base64 AuthCodeURL env client r)).
Local Abbreviation callback r := (run (Callback ParseQuery env client r)).

(** [C7]: when the random key is drawn, the handler sets the state cookie
    once, right after reading the clock and before anything is written to
    the response: name "state", path "/api/auth", Secure, HttpOnly, MaxAge
    600 and Expires 600 seconds after the clock's reading.  What follows
    sets no cookie and ends in the 302 redirect, or in the 403 of a refused
    developer token.  When no key can be drawn the answer is 500 and no
    cookie is set. *)
Theorem auth_state_cookie (r : Request) :
  (∀ key, random16 env = Ok key →
     ∃ post,
       auth r
       = ([EvRandom16 (Ok key); EvNow (now env);
           EvSetCookie {| Name := "state"; Value := Base64 key; Path := "/api/auth";
                          Expires := Some (now env + 600 * 1000000000);
                          MaxAge := 600; Secure := true; HttpOnly := true |}]
          ++ post)%list
       ∧ (∀ e, e ∈ post → isSetCookie e = false)
       ∧ ((∃ url, last post = Some (EvRedirect url 302))
          ∨ (last post = Some (EvHttpError "access denied" 403)
             ∧ Values_Get (query r) "token" ≠ ""
             ∧ allowDevLogin client = false
             ∧ ∀ e, e ∈ post → isRedirect e = false)))
  ∧ (∀ err, random16 env = Err err →
       auth r
       = [EvRandom16 (Err err);
          EvLog LvlError [FErr err] "can't create state parameter";
          EvHttpError "can't create state parameter" 500]
       ∧ ∀ e, e ∈ auth r → isSetCookie e = false).
Proof.
  split.
  - intros key Hkey. handler_cases; simplify_eq; eexists; (split; [reflexivity|]).
    all: split; [intros e He; trace_mem He; subst; reflexivity|].
    all: first [ left; eexists; reflexivity
               | right; repeat split; try done;
                 intros e He; trace_mem He; subst; reflexivity ].
  - intros err Herr.
    assert (auth r
            = [EvRandom16 (Err err);
               EvLog LvlError [FErr err] "can't create state parameter";
               EvHttpError "can't create state parameter" 500]) as ->.
    { handler_cases; simplify_eq; reflexivity. }
    split; [reflexivity|].
    intros e He. trace_mem He; subst; reflexivity.
Qed.

(** [C6], as the code has it: with developer login off, a request with a
    non-empty [token] is answered 403 "access denied" on [Auth] once the
    random key is drawn, and on [Callback] once the state check has passed;
    neither handler reaches token verification on such a request. *)
Theorem dev_login_disabled_refused (r : Request) :
  allowDevLogin client = false →
  Values_Get (query r) "token" ≠ "" →
  (∀ key, random16 env = Ok key →
     ∃ c, auth r
          = [EvRandom16 (Ok key); EvNow (now env); EvSetCookie c;
             EvLog LvlDebug [] "dev token login not allowed";
             EvHttpError "access denied" 403])
  ∧ (∀ cookie, Request_Cookie r "state" = Ok cookie →
       Values_Get (query r) "state" = Value cookie →
       callback r = [EvLog LvlDebug [] "dev token login not allowed";
                     EvHttpError "access denied" 403])
  ∧ (∀ e, e ∈ auth r ∨ e ∈ callback r → isVerify e = false).
Proof.
  intros Hdev Ht. split; [|split].
  - intros key Hkey. handler_cases; simplify_eq. eexists; reflexivity.
  - intros cookie Hc Heq. handler_cases; simplify_eq; reflexivity.
  - intros e [He|He]; revert He.
    + handler_cases; intros He; trace_mem He; subst; reflexivity.
    + handler_cases; intros He; trace_mem He; subst; reflexivity.
Qed.

(** [C3], as the code has it: the handler never reads the clock and knows
    nothing of when a cookie was issued.  A callback whose state cookie
    equals the [state] parameter is treated the same at every time of
    arrival: it is answered neither "state did not match" nor "login session
    expired", and goes on to acquire a token, by exchanging the code, by
    taking the developer token to verification, or by refusing the developer
    token.  The lifetime is only told to the browser, in the MaxAge and
    Expires of the cookie [Auth] sets; a callback that comes without the
    cookie is answered 400 "login session expired", at every time too. *)
Theorem callback_ignores_clock (r : Request) (cookie : Cookie) (t : Time) :
  Request_Cookie r "state" = Ok cookie →
  Values_Get (query r) "state" = Value cookie →
  let late := mkEnv (random16 env) t (exchange env) (verify env) in
  run (Callback ParseQuery late client r) = callback r
  ∧ (∀ e, e ∈ run (Callback ParseQuery late client r) →
          e ≠ EvHttpError "state did not match" 400
          ∧ e ≠ EvHttpError "login session expired" 400
          ∧ ∀ t', e ≠ EvNow t')
  ∧ (Values_Get (query r) "token" = "" →
       ∃ rest, run (Callback ParseQuery late client r)
               = EvExchange (Values_Get (query r) "code")
                   (exchange env (Values_Get (query r) "code")) :: rest)
  ∧ (Values_Get (query r) "token" ≠ "" → allowDevLogin client = true →
       ∃ rest, run (Callback ParseQuery late client r)
               = EvVerify (Values_Get (query r) "token")
                   (verify env (Values_Get (query r) "token")) :: rest)
  ∧ (Values_Get (query r) "token" ≠ "" → allowDevLogin client = false →
       run (Callback ParseQuery late client r)
       = [EvLog LvlDebug [] "dev token login not allowed";
          EvHttpError "access denied" 403])
  ∧ (∀ r' err, Request_Cookie r' "state" = Err err →
       run (Callback ParseQuery late client r')
       = [EvLog LvlDebug [] "no state cookie";
          EvHttpError "login session expired" 400])
  ∧ (∀ env0 r0 c,
       EvSetCookie c ∈ run (Auth ParseQuery Base64 AuthCodeURL env0 client r0) →
       MaxAge c = 600 ∧ Expires c = Some (now env0 + 600 * 1000000000)).
Proof.
  intros Hc Heq late. subst late.
  split; [reflexivity|]. split; [|split; [|split; [|split; [|split]]]].
  - intros e Hin. revert Hin.
    handler_cases; intros Hin; trace_mem Hin; subst; repeat split; try discriminate;
      intros t'; discriminate.
  - intros Ht. handler_cases; eexists; reflexivity.
  - intros Ht Hdev. handler_cases; eexists; reflexivity.
  - intros Ht Hdev. handler_cases; reflexivity.
  - intros r' err Hno. unfold run, Callback. rewrite Hno. reflexivity.
  - intros env0 r0 c Hin. revert Hin.
    handler_cases; intros Hin; trace_mem Hin; simplify_eq; split; reflexivity.
Qed.

End AuthProperties.

(** ** Properties of [DumpToken] *)

Section DumpTokenProperties.

Variable json_Unmarshal : string → result (option string).
Variable json_MarshalIndent : DumpOut → result string.

Local Abbreviation dumpToken p i := (DumpToken json_Unmarshal json_MarshalIndent p i).

Lemma DumpToken_steps (s : State) (l : loc) (t : Token) (idToken : option IDToken) :
  heap s !! l = Some t →
  dumpToken (Some l) idToken s
  = DumpToken_render json_Unmarshal json_MarshalIndent (censored t) idToken
      (mkState (trace s) (<[l := censored t]> (heap s))).
Proof.
  intros Hl. destruct s as [tr h]; simpl in *.
  assert (<[l := t]> h = h) as Hid by (apply insert_id; exact Hl).
  unfold DumpToken, DumpToken_render, censored, M_bind, M_ret, load, store; cbn.
  repeat first [ progress cbn
               | rewrite Hl | rewrite lookup_insert_eq | rewrite insert_insert_eq
               | rewrite Hid | case_decide ];
    try contradiction;
    destruct idToken as [i|]; try reflexivity;
    destruct (IDToken_Claims json_Unmarshal i); cbn;
    rewrite ?Hl, ?lookup_insert_eq; reflexivity.
Qed.

Lemma DumpToken_render_heap (t : Token) (idToken : option IDToken) (s : State) :
  heap (snd (DumpToken_render json_Unmarshal json_MarshalIndent t idToken s)) = heap s.
Proof.
  unfold DumpToken_render, logger, http_Error, M_bind, emit, exit, panic.
  repeat case_match; reflexivity.
Qed.

(** [C10]: [DumpToken] writes through its token pointer.  After the call
    the caller's token holds "***" in AccessToken if that was non-empty and
    in RefreshToken if that was non-empty, an empty one stays empty, the
    other fields are as they were, and no other object of the store is
    touched. *)
Theorem dumpToken_censors_in_place (s : State) (l : loc) (t : Token)
    (idToken : option IDToken) :
  heap s !! l = Some t →
  ∃ t', heap (snd (dumpToken (Some l) idToken s)) = <[l := t']> (heap s)
        ∧ AccessToken t' = (if decide (AccessToken t = "") then "" else "***")
        ∧ RefreshToken t' = (if decide (RefreshToken t = "") then "" else "***")
        ∧ TokenType t' = TokenType t
        ∧ Expiry t' = Expiry t
        ∧ raw t' = raw t.
Proof.
  intros Hl. exists (censored t).
  rewrite (DumpToken_steps s l t idToken Hl), DumpToken_render_heap.
  split; [reflexivity|].
  unfold censored.
  destruct (decide (AccessToken t ≠ "")) as [Ha|Ha];
    destruct (decide (AccessToken t = "")) as [Ha'|Ha']; try contradiction;
    cbn;
    destruct (decide (RefreshToken t ≠ "")) as [Hr|Hr];
    destruct (decide (RefreshToken t = "")) as [Hr'|Hr']; try contradiction;
    cbn; repeat split; try congruence.
  all: exfalso; auto.
Qed.

Lemma DumpToken_render_trace (t : Token) (idToken : option IDToken) (s s' : State) :
  trace s = trace s' →
  trace (snd (DumpToken_render json_Unmarshal json_MarshalIndent t idToken s)) = trace (snd (DumpToken_render json_Unmarshal json_MarshalIndent t idToken s')).
Proof.
  intros Htr.
  unfold DumpToken_render, logger, http_Error, M_bind, emit, exit, panic.
  repeat case_match; cbn; rewrite ?Htr; reflexivity.
Qed.

Lemma censored_secret_free (t u : Token) :
  TokenType u = TokenType t → Expiry u = Expiry t → raw u = raw t →
  (AccessToken u = "" ↔ AccessToken t = "") →
  (RefreshToken u = "" ↔ RefreshToken t = "") →
  censored u = censored t.
Proof.
  destruct t as [a ty rf ex rw], u as [a' ty' rf' ex' rw']; cbn.
  intros -> -> -> Ha Hr.
  destruct (decide (a = "")) as [->|Hna], (decide (a' = "")) as [->|Hna'];
    try tauto;
    destruct (decide (rf = "")) as [->|Hnr], (decide (rf' = "")) as [->|Hnr'];
    try tauto;
    unfold censored; cbn; repeat (case_decide; cbn); done.
Qed.

(** [C8], as the code has it: the document [DumpToken] writes is the
    serialization of the token after censoring, in which a non-empty
    AccessToken or RefreshToken reads "***" and every other field is the
    caller's; so two tokens that differ only in the values of their
    non-empty AccessToken and RefreshToken produce the same trace, byte for
    byte. *)
Theorem dumpToken_writes_censored (h : gmap loc Token) (l : loc) (t : Token)
    (idToken : option IDToken) :
  h !! l = Some t →
  (∀ data,
     EvWrite data ∈ trace (snd (dumpToken (Some l) idToken (initState h))) →
     ∃ i c t', idToken = Some i
               ∧ IDToken_Claims json_Unmarshal i = Ok c
               ∧ json_MarshalIndent (mkDumpOut t' c) = Ok data
               ∧ (AccessToken t ≠ "" → AccessToken t' = "***")
               ∧ (RefreshToken t ≠ "" → RefreshToken t' = "***")
               ∧ (AccessToken t = "" → AccessToken t' = "")
               ∧ (RefreshToken t = "" → RefreshToken t' = "")
               ∧ TokenType t' = TokenType t
               ∧ Expiry t' = Expiry t
               ∧ raw t' = raw t)
  ∧ (∀ u, TokenType u = TokenType t → Expiry u = Expiry t → raw u = raw t →
          (AccessToken u = "" ↔ AccessToken t = "") →
          (RefreshToken u = "" ↔ RefreshToken t = "") →
          trace (snd (dumpToken (Some l) idToken (initState (<[l := u]> h))))
          = trace (snd (dumpToken (Some l) idToken (initState h)))).
Proof.
  intros Hl. split.
  - intros data.
    rewrite (DumpToken_steps (initState h) l t idToken Hl).
    unfold DumpToken_render, logger, http_Error, M_bind, emit, exit, panic.
    destruct idToken as [i|]; cbn; [|intros Hin; trace_mem Hin].
    destruct (IDToken_Claims json_Unmarshal i) as [c|err] eqn:Hclaims; cbn;
      [|intros Hin; trace_mem Hin].
    destruct (json_MarshalIndent (mkDumpOut (censored t) c)) as [d|err] eqn:Hm; cbn;
      intros Hin; trace_mem Hin.
    simplify_eq.
    exists i, c, (censored t).
    split; [reflexivity|]. split; [exact Hclaims|]. split; [exact Hm|].
    clear Hm Hl. destruct t as [a ty rf ex rw]. unfold censored; cbn.
    repeat (case_decide; cbn in *); repeat split; intros; congruence.
  - intros u Hty Hex Hraw Ha Hr.
    rewrite (DumpToken_steps (initState (<[l := u]> h)) l u idToken)
      by (cbn; apply lookup_insert_eq).
    rewrite (DumpToken_steps (initState h) l t idToken Hl).
    rewrite (censored_secret_free t u Hty Hex Hraw Ha Hr).
    apply DumpToken_render_trace. reflexivity.
Qed.

End DumpTokenProperties.

(** ** The theorems at work on the examples *)

Ltac in_trace :=
  vm_compute; repeat first [apply list_elem_of_here | apply list_elem_of_further].

Lemma callback_no_cookie_witness :
  Request_Cookie (exampleRequest [] "state=abc&code=c0de") "state" = Err ErrNoCookie
  ∧ run (Callback ParseQuery_plain (exampleEnv (Ok "k3y") 0) (exampleClient false None)
           (exampleRequest [] "state=abc&code=c0de"))
    = [EvLog LvlDebug [] "no state cookie";
       EvHttpError "login session expired" 400].
Proof.
  split; [reflexivity|].
  apply (callback_no_cookie ParseQuery_plain (exampleEnv (Ok "k3y") 0)
           (exampleClient false None) (exampleRequest [] "state=abc&code=c0de")
           ErrNoCookie).
  reflexivity.
Defined.

Lemma callback_state_check_first_witness :
  Request_Cookie (exampleRequest [stateCookie "abc"] "state=abd&code=c0de") "state"
  = Ok (stateCookie "abc")
  ∧ Values_Get (ParseQuery_plain "state=abd&code=c0de") "state" ≠ "abc"
  ∧ run (Callback ParseQuery_plain (exampleEnv (Ok "k3y") 0) (exampleClient false None)
           (exampleRequest [stateCookie "abc"] "state=abd&code=c0de"))
    = [EvLog LvlDebug [FStr "param" "abd"; FStr "cookie" "abc"] "state did not match";
       EvHttpError "state did not match" 400].
Proof.
  split; [reflexivity|]. split; [vm_compute; discriminate|].
  apply (proj2 (callback_state_check_first ParseQuery_plain (exampleEnv (Ok "k3y") 0)
                  (exampleClient false None)
                  (exampleRequest [stateCookie "abc"] "state=abd&code=c0de"))
           (stateCookie "abc")).
  - reflexivity.
  - vm_compute; discriminate.
Defined.

Lemma callback_empty_state_accepted_witness :
  Request_Cookie (exampleRequest [stateCookie ""] "code=c0de") "state"
  = Ok (stateCookie "")
  ∧ ParseQuery_plain "code=c0de" !! "state" = None
  ∧ ∃ rest,
      run (Callback ParseQuery_plain (exampleEnv (Ok "k3y") 0) (exampleClient false None)
             (exampleRequest [stateCookie ""] "code=c0de"))
      = EvExchange "c0de" (Ok exampleToken) :: rest.
Proof.
  split; [reflexivity|]. split; [reflexivity|].
  apply (callback_empty_state_accepted ParseQuery_plain (exampleEnv (Ok "k3y") 0)
           (exampleClient false None) (exampleRequest [stateCookie ""] "code=c0de")
           (stateCookie "")); reflexivity.
Defined.

Lemma callback_dev_token_unverified_witness :
  Request_Cookie (exampleRequest [stateCookie "abc"] "state=abc&token=bad.jwt") "state"
  = Ok (stateCookie "abc")
  ∧ verify (exampleEnv (Ok "k3y") 0) "bad.jwt" = Err (ErrOther "oidc: malformed jwt")
  ∧ run (Callback ParseQuery_plain (exampleEnv (Ok "k3y") 0) (exampleClient true None)
           (exampleRequest [stateCookie "abc"] "state=abc&token=bad.jwt"))
    = [EvVerify "bad.jwt" (Err (ErrOther "oidc: malformed jwt"));
       EvLog LvlError [FErr (ErrOther "oidc: malformed jwt")] "id token does not verify";
       EvHttpError "id token verification failed" 500].
Proof.
  split; [reflexivity|]. split; [reflexivity|].
  apply (proj2 (callback_dev_token_unverified ParseQuery_plain
                  (exampleEnv (Ok "k3y") 0) (exampleClient true None)
                  (exampleRequest [stateCookie "abc"] "state=abc&token=bad.jwt")
                  (ErrOther "oidc: malformed jwt")
                  eq_refl ltac:(vm_compute; discriminate) eq_refl)
           (stateCookie "abc")); reflexivity.
Defined.

Lemma callback_ignores_clock_witness :
  Request_Cookie (exampleRequest [stateCookie "k3y"] "state=k3y&code=c0de") "state"
  = Ok (stateCookie "k3y")
  ∧ Values_Get (ParseQuery_plain "state=k3y&code=c0de") "state" = "k3y"
  ∧ Values_Get (ParseQuery_plain "state=k3y&code=c0de") "token" = ""
  ∧ ∃ rest,
      run (Callback ParseQuery_plain (exampleEnv (Ok "k3y") 601000000000)
             (exampleClient false None)
             (exampleRequest [stateCookie "k3y"] "state=k3y&code=c0de"))
      = EvExchange "c0de" (Ok exampleToken) :: rest.
Proof.
  split; [reflexivity|]. split; [reflexivity|]. split; [reflexivity|].
  apply (callback_ignores_clock ParseQuery_plain Base64_plain AuthCodeURL_plain
           (exampleEnv (Ok "k3y") 0) (exampleClient false None)
           (exampleRequest [stateCookie "k3y"] "state=k3y&code=c0de")
           (stateCookie "k3y") 601000000000); reflexivity.
Defined.

Lemma callback_hook_dispatch_witness :
  EvVerify "good.jwt" (Ok exampleIDToken)
    ∈ run (Callback ParseQuery_plain (exampleEnv (Ok "k3y") 0)
             (exampleClient false (Some hookMissingOrganization))
             (exampleRequest [stateCookie "abc"] "state=abc&code=c0de"))
  ∧ ∃ pre tok,
      run (Callback ParseQuery_plain (exampleEnv (Ok "k3y") 0)
             (exampleClient false (Some hookMissingOrganization))
             (exampleRequest [stateCookie "abc"] "state=abc&code=c0de"))
      = (pre ++ [EvVerify "good.jwt" (Ok exampleIDToken);
                 EvLog LvlInfo [FStr "sub" "alice"] "login";
                 EvOnLogin tok exampleIDToken (Some ErrMissingOrganization);
                 EvRedirect "https://qvain.example/?missingorg=1" 302])%list.
Proof.
  split; [in_trace|].
  destruct (callback_hook_dispatch ParseQuery_plain (exampleEnv (Ok "k3y") 0)
              (exampleClient false (Some hookMissingOrganization))
              (exampleRequest [stateCookie "abc"] "state=abc&code=c0de")
              hookMissingOrganization "good.jwt" exampleIDToken)
    as (pre & tok & post & Htrace & _ & Horg & _); [reflexivity | in_trace |].
  exists pre, tok. rewrite Htrace, (Horg eq_refl). reflexivity.
Defined.

Lemma auth_state_cookie_witness :
  random16 (exampleEnv (Ok "k3y") 7) = Ok "k3y"
  ∧ ∃ post,
      run (Auth ParseQuery_plain Base64_plain AuthCodeURL_plain (exampleEnv (Ok "k3y") 7)
             (exampleClient false None) (exampleRequest [] "next=home"))
      = ([EvRandom16 (Ok "k3y"); EvNow 7;
          EvSetCookie (mkCookie "state" "k3y" "/api/auth" (Some 600000000007) 600 true true)]
         ++ post)%list.
Proof.
  split; [reflexivity|].
  destruct (proj1 (auth_state_cookie ParseQuery_plain Base64_plain AuthCodeURL_plain
                     (exampleEnv (Ok "k3y") 7) (exampleClient false None)
                     (exampleRequest [] "next=home")) "k3y" eq_refl)
    as (post & Htrace & _).
  exists post. exact Htrace.
Defined.

Lemma dev_login_disabled_refused_witness :
  Values_Get (ParseQuery_plain "state=abc&token=good.jwt") "token" ≠ ""
  ∧ Request_Cookie (exampleRequest [stateCookie "abc"] "state=abc&token=good.jwt") "state"
    = Ok (stateCookie "abc")
  ∧ run (Callback ParseQuery_plain (exampleEnv (Ok "k3y") 0) (exampleClient false None)
           (exampleRequest [stateCookie "abc"] "state=abc&token=good.jwt"))
    = [EvLog LvlDebug [] "dev token login not allowed";
       EvHttpError "access denied" 403].
Proof.
  split; [vm_compute; discriminate|]. split; [reflexivity|].
  apply (proj1 (proj2 (dev_login_disabled_refused ParseQuery_plain Base64_plain
                         AuthCodeURL_plain (exampleEnv (Ok "k3y") 0)
                         (exampleClient false None)
                         (exampleRequest [stateCookie "abc"] "state=abc&token=good.jwt")
                         eq_refl ltac:(vm_compute; discriminate)))
           (stateCookie "abc")); reflexivity.
Defined.

Lemma dumpToken_censors_in_place_witness :
  ({[ 1%positive := exampleToken ]} : gmap loc Token) !! 1%positive = Some exampleToken
  ∧ ∃ t', heap (snd (DumpToken json_Unmarshal_raw json_MarshalIndent_example
                       (Some 1%positive) (Some exampleIDToken)
                       (initState {[ 1%positive := exampleToken ]})))
          = <[1%positive := t']> ({[ 1%positive := exampleToken ]} : gmap loc Token)
          ∧ AccessToken t' = "***" ∧ RefreshToken t' = "***".
Proof.
  split; [reflexivity|].
  destruct (dumpToken_censors_in_place json_Unmarshal_raw json_MarshalIndent_example
              (initState {[ 1%positive := exampleToken ]}) 1%positive exampleToken
              (Some exampleIDToken))
    as (t' & Hheap & Ha & Hr & _); [reflexivity|].
  exists t'. split; [exact Hheap|]. split; [exact Ha | exact Hr].
Defined.

Lemma dumpToken_writes_censored_witness :
  ({[ 1%positive := exampleToken ]} : gmap loc Token) !! 1%positive = Some exampleToken
  ∧ trace (snd (DumpToken json_Unmarshal_raw json_MarshalIndent_example
                  (Some 1%positive) (Some exampleIDToken)
                  (initState (<[1%positive := mkToken "other-at" "Bearer" "other-rt"
                                                2000000000000000000
                                                {[ "id_token" := XString "good.jwt" ]}]>
                                {[ 1%positive := exampleToken ]}))))
    = trace (snd (DumpToken json_Unmarshal_raw json_MarshalIndent_example
                    (Some 1%positive) (Some exampleIDToken)
                    (initState {[ 1%positive := exampleToken ]}))).
Proof.
  assert (({[ 1%positive := exampleToken ]} : gmap loc Token) !! 1%positive
          = Some exampleToken) as Hl by reflexivity.
  split; [exact Hl|].
  apply (proj2 (dumpToken_writes_censored json_Unmarshal_raw json_MarshalIndent_example
                  {[ 1%positive := exampleToken ]} 1%positive exampleToken
                  (Some exampleIDToken) Hl)
           (mkToken "other-at" "Bearer" "other-rt" 2000000000000000000
              {[ "id_token" := XString "good.jwt" ]})).
  - reflexivity.
  - reflexivity.
  - reflexivity.
  - split; discriminate.
  - split; discriminate.
Defined.

(** ** The statements that fail, each at one request *)

(** [C2] as worded: the state check comes before the developer token is
    looked at, so a callback without a state cookie is answered 400 though
    it carries a token that would not verify. *)
Lemma dev_token_unverified_counterexample :
  run (Callback ParseQuery_plain (exampleEnv (Ok "k3y") 0) (exampleClient true None)
         (exampleRequest [] "token=bad.jwt"))
  = [EvLog LvlDebug [] "no state cookie";
     EvHttpError "login session expired" 400]
  ∧ ¬ dev_token_unverified_as_stated ParseQuery_plain.
Proof.
  split; [reflexivity|].
  intros H.
  destruct (H (exampleEnv (Ok "k3y") 0) (exampleClient true None)
              (exampleRequest [] "token=bad.jwt") (ErrOther "oidc: malformed jwt"))
    as [Hlast _]; [reflexivity | vm_compute; discriminate | reflexivity |].
  vm_compute in Hlast. discriminate Hlast.
Qed.

(** [C3] as worded: a cookie issued at time 0 with a lifetime of 600
    seconds and presented 601 seconds later, equal to the [state] parameter,
    logs the user in. *)
Lemma expired_state_counterexample :
  run (Callback ParseQuery_plain (exampleEnv (Ok "k3y") 601000000000)
         (exampleClient false None)
         (exampleRequest [stateCookie "k3y"] "state=k3y&code=c0de"))
  = [EvExchange "c0de" (Ok exampleToken);
     EvVerify "good.jwt" (Ok exampleIDToken);
     EvLog LvlInfo [FStr "sub" "alice"] "login";
     EvRedirect "https://qvain.example/" 302]
  ∧ ¬ expired_state_as_stated ParseQuery_plain Base64_plain AuthCodeURL_plain.
Proof.
  split; [reflexivity|].
  intros H.
  specialize (H (exampleEnv (Ok "k3y") 0) (exampleEnv (Ok "k3y") 601000000000)
                (exampleClient false None)
                (exampleRequest [] "")
                (exampleRequest [stateCookie "k3y"] "state=k3y&code=c0de")
                (mkCookie "state" "k3y" "/api/auth" (Some 600000000000) 600 true true)
                (stateCookie "k3y") 600000000000).
  assert (exampleCallback :
            run (Callback ParseQuery_plain (exampleEnv (Ok "k3y") 601000000000)
                   (exampleClient false None)
                   (exampleRequest [stateCookie "k3y"] "state=k3y&code=c0de"))
            = [EvExchange "c0de" (Ok exampleToken);
               EvVerify "good.jwt" (Ok exampleIDToken);
               EvLog LvlInfo [FStr "sub" "alice"] "login";
               EvRedirect "https://qvain.example/" 302]) by reflexivity.
  rewrite exampleCallback in H.
  discriminate H; [in_trace | reflexivity | reflexivity | reflexivity | reflexivity].
Qed.

(** [C6] as worded: on [Auth] the random key is drawn first, and when that
    fails the answer is 500, token or no token. *)
Lemma dev_login_disabled_counterexample :
  run (Auth ParseQuery_plain Base64_plain AuthCodeURL_plain
         (exampleEnv (Err (ErrOther "rand: unavailable")) 0)
         (exampleClient false None) (exampleRequest [] "token=good.jwt"))
  = [EvRandom16 (Err (ErrOther "rand: unavailable"));
     EvLog LvlError [FErr (ErrOther "rand: unavailable")] "can't create state parameter";
     EvHttpError "can't create state parameter" 500]
  ∧ ¬ dev_login_disabled_as_stated ParseQuery_plain Base64_plain AuthCodeURL_plain.
Proof.
  split; [reflexivity|].
  intros H.
  destruct (H (exampleEnv (Err (ErrOther "rand: unavailable")) 0)
              (exampleClient false None) (exampleRequest [] "token=good.jwt"))
    as [[Hlast _] _]; [reflexivity | vm_compute; discriminate |].
  vm_compute in Hlast. discriminate Hlast.
Qed.

(** [C8] as worded: an access token that reads "***" is written out as it
    came in. *)
Lemma dump_hides_secrets_counterexample :
  trace (snd (DumpToken json_Unmarshal_raw json_MarshalIndent_example (Some 1%positive)
                (Some exampleIDToken)
                (initState {[ 1%positive := mkToken "***" "Bearer" "" 2000000000000000000 ∅ ]})))
  = [EvHeaderSet "Content-Type" "application/json";
     EvWrite
       ("{" ++ newline
        ++ "    " ++ json_string "OAuth2Token" ++ ": {" ++ newline
        ++ "        " ++ json_string "access_token" ++ ": " ++ json_string "***" ++ "," ++ newline
        ++ "        " ++ json_string "token_type" ++ ": " ++ json_string "Bearer" ++ "," ++ newline
        ++ "        " ++ json_string "expiry" ++ ": " ++ json_string "2033-05-18T03:33:20Z" ++ newline
        ++ "    }," ++ newline
        ++ "    " ++ json_string "IDTokenClaims" ++ ": {}" ++ newline
        ++ "}")]
  ∧ ¬ dump_hides_secrets_as_stated json_Unmarshal_raw json_MarshalIndent_example.
Proof.
  split; [reflexivity|].
  intros H.
  destruct (H {[ 1%positive := mkToken "***" "Bearer" "" 2000000000000000000 ∅ ]}
              1%positive (mkToken "***" "Bearer" "" 2000000000000000000 ∅)
              (Some exampleIDToken)
              ("{" ++ newline
               ++ "    " ++ json_string "OAuth2Token" ++ ": {" ++ newline
               ++ "        " ++ json_string "access_token" ++ ": " ++ json_string "***" ++ "," ++ newline
               ++ "        " ++ json_string "token_type" ++ ": " ++ json_string "Bearer" ++ "," ++ newline
               ++ "        " ++ json_string "expiry" ++ ": " ++ json_string "2033-05-18T03:33:20Z" ++ newline
               ++ "    }," ++ newline
               ++ "    " ++ json_string "IDTokenClaims" ++ ": {}" ++ newline
               ++ "}"))
    as [Hacc _]; [reflexivity | in_trace |].
  specialize (Hacc ltac:(discriminate)).
  vm_compute in Hacc. discriminate Hacc.
Qed.

(** * Further properties of the handlers *)

(** The last call of a computed trace, split off. *)
Ltac split_last :=
  match goal with
  | |- ∃ pre e, [?a] = _ ∧ _ => exists [], a
  | |- ∃ pre e, [?a; ?b] = _ ∧ _ => exists [a], b
  | |- ∃ pre e, [?a; ?b; ?c] = _ ∧ _ => exists [a; b], c
  | |- ∃ pre e, [?a; ?b; ?c; ?d] = _ ∧ _ => exists [a; b; c], d
  | |- ∃ pre e, [?a; ?b; ?c; ?d; ?f] = _ ∧ _ => exists [a; b; c; d], f
  | |- ∃ pre e, [?a; ?b; ?c; ?d; ?f; ?g] = _ ∧ _ => exists [a; b; c; d; f], g
  | |- ∃ pre e, [?a; ?b; ?c; ?d; ?f; ?g; ?h] = _ ∧ _ => exists [a; b; c; d; f; g], h
  end.

Ltac pick_member :=
  repeat first [apply list_elem_of_here | apply list_elem_of_further].

Section HandlerResponses.

Variable ParseQuery : string → gmap string (list string).
Variable Base64 : Key → string.
Variable AuthCodeURL : Config → string → list (string * string) → string.
Variable env : Env.
Variable client : OidcClient.

Local Abbreviation query r := (URL_Query ParseQuery (ReqURL r)).
Local Abbreviation auth r := (run (Auth ParseQuery Base64 AuthCodeURL env client r)).
Local Abbreviation callback r := (run (Callback ParseQuery env client r)).

(** [X1]: every run of [Callback] answers the request once, and the answer
    is its last call: one [http.Error] or one [http.Redirect], nothing
    written to the response before it. *)
Theorem callback_answers_once (r : Request) :
  ∃ pre e, callback r = (pre ++ [e])%list
           ∧ isResponse e = true
           ∧ ∀ e', e' ∈ pre → isResponse e' = false ∧ isWrite e' = false
                               ∧ isSetCookie e' = false.
Proof.
  handler_cases; split_last; (split; [reflexivity|]); (split; [reflexivity|]).
  all: intros e' He'; trace_mem He'; subst; repeat split.
Qed.

(** [X2]: every run of [Auth] answers the request once, as its last call.
    Before the answer the only call on the response writer is the
    [http.SetCookie] of the state cookie, made once when the random key is
    drawn and not at all when it is not; no other header is set and no body
    is written. *)
Theorem auth_answers_once (r : Request) :
  ∃ pre e, auth r = (pre ++ [e])%list
           ∧ isResponse e = true
           ∧ (∀ e', e' ∈ pre → isResponse e' = false ∧ isWrite e' = false)
           ∧ filter (λ e', isSetCookie e' = true) pre
             = match random16 env with
               | Ok key =>
                   [EvSetCookie {| Name := "state"; Value := Base64 key;
                                   Path := "/api/auth";
                                   Expires := Some (now env + 600 * 1000000000);
                                   MaxAge := 600; Secure := true; HttpOnly := true |}]
               | Err _ => []
               end.
Proof.
  handler_cases; split_last; (split; [reflexivity|]); (split; [reflexivity|]).
  all: split; [intros e' He'; trace_mem He'; subst; repeat split | reflexivity].
Qed.

(** [X3]: the answers of [Callback] are these ten and no others: two 400s,
    one 403, four 500s, and a 302 to the frontend URL, plain or with one of
    the two markers.  It redirects nowhere else. *)
Theorem callback_answers (r : Request) (e : event) :
  e ∈ callback r → isResponse e = true →
  e ∈ [EvHttpError "login session expired" 400;
       EvHttpError "state did not match" 400;
       EvHttpError "access denied" 403;
       EvHttpError "failed to exchange code for token" 500;
       EvHttpError "IdP did not sent an id token" 500;
       EvHttpError "id token verification failed" 500;
       EvHttpError "Login failed" 500;
       EvRedirect (frontendUrl client) 302;
       EvRedirect (frontendUrl client ++ "?missingcsc=1") 302;
       EvRedirect (frontendUrl client ++ "?missingorg=1") 302].
Proof.
  intros Hin Hresp. revert Hin.
  handler_cases; intros Hin; trace_mem Hin; subst; try discriminate Hresp.
  all: pick_member.
Qed.

(** [X4]: on the standard path a failed code exchange is answered 500
    "failed to exchange code for token"; nothing is verified and the hook
    is not called. *)
Theorem callback_exchange_failure (r : Request) (cookie : Cookie) (err : error) :
  Request_Cookie r "state" = Ok cookie →
  Values_Get (query r) "state" = Value cookie →
  Values_Get (query r) "token" = "" →
  exchange env (Values_Get (query r) "code") = Err err →
  callback r
  = [EvExchange (Values_Get (query r) "code") (Err err);
     EvLog LvlError [FErr err] "token exchange failed";
     EvHttpError "failed to exchange code for token" 500].
Proof.
  intros Hc Heq Ht Hx. handler_cases; first [reflexivity | congruence].
Qed.

(** [X5]: a token bundle whose [id_token] extra is missing or is not a
    string is answered 500 "IdP did not sent an id token", before any
    verification. *)
Theorem callback_missing_id_token (r : Request) (cookie : Cookie) (tok : Token)
    (s : string) :
  Request_Cookie r "state" = Ok cookie →
  Values_Get (query r) "state" = Value cookie →
  Values_Get (query r) "token" = "" →
  exchange env (Values_Get (query r) "code") = Ok tok →
  Token_Extra_string tok "id_token" = (s, false) →
  callback r
  = [EvExchange (Values_Get (query r) "code") (Ok tok);
     EvLog LvlError [] "id_token missing from IdP response";
     EvHttpError "IdP did not sent an id token" 500].
Proof.
  intros Hc Heq Ht Hx Hextra. handler_cases; first [reflexivity | congruence].
Qed.

(** [X6]: the hook is called only with a verified identity.  Whenever
    [OnLogin] is called, the state check has passed, the identity token it
    receives is the one [Verify] returned just before, and the OAuth2 token
    it receives is nil on the developer path and the exchanged token, whose
    [id_token] was the string verified, on the standard path. *)
Theorem callback_hook_guarded (r : Request) (tok : option Token) (idToken : IDToken)
    (res : option error) :
  EvOnLogin tok idToken res ∈ callback r →
  ∃ cookie rawIDToken,
    Request_Cookie r "state" = Ok cookie
    ∧ Values_Get (query r) "state" = Value cookie
    ∧ verify env rawIDToken = Ok idToken
    ∧ (∃ pre post, callback r = (pre ++ EvVerify rawIDToken (Ok idToken) :: post)%list
                   ∧ EvOnLogin tok idToken res ∈ post
                   ∧ ∀ e, e ∈ pre → isOnLogin e = false)
    ∧ ((Values_Get (query r) "token" ≠ ""
        ∧ allowDevLogin client = true
        ∧ rawIDToken = Values_Get (query r) "token"
        ∧ tok = None)
       ∨ (Values_Get (query r) "token" = ""
          ∧ ∃ t, exchange env (Values_Get (query r) "code") = Ok t
                 ∧ Token_Extra_string t "id_token" = (rawIDToken, true)
                 ∧ tok = Some t)).
Proof.
  intros Hin. revert Hin.
  handler_cases; intros Hin; trace_mem Hin; simplify_eq.
  all: match goal with
       | |- ∃ _ _, _ ∧ _ ∧ _ ∧ (∃ _ _, EvVerify ?raw _ :: ?post = _ ∧ _) ∧ _ =>
           eexists _, raw; split; [reflexivity|];
           split; [assumption|]; split; [assumption|];
           split; [exists [], post|]
       | |- ∃ _ _, _ ∧ _ ∧ _ ∧ (∃ _ _, ?x :: EvVerify ?raw _ :: ?post = _ ∧ _) ∧ _ =>
           eexists _, raw; split; [reflexivity|];
           split; [assumption|]; split; [assumption|];
           split; [exists [x], post|]
       end.
  all: try (split; [reflexivity|]; split; [pick_member|];
            intros e' He'; trace_mem He'; subst; reflexivity).
  all: try match goal with
           | Hb : negb ?b = false |- _ => destruct b; [|discriminate Hb]
           end.
  all: first [ left; repeat split; done
             | right; split; [done|]; eexists; repeat split; done ].
Qed.

(** [X7]: [Callback] redirects only after a token has verified: a redirect
    in its trace comes after a successful [Verify]. *)
Theorem callback_redirect_after_verify (r : Request) (url : string) (code : Z) :
  EvRedirect url code ∈ callback r →
  ∃ pre rawIDToken idToken post,
    callback r = (pre ++ EvVerify rawIDToken (Ok idToken) :: post)%list
    ∧ verify env rawIDToken = Ok idToken
    ∧ EvRedirect url code ∈ post.
Proof.
  intros Hin. revert Hin.
  handler_cases; intros Hin; trace_mem Hin; simplify_eq.
  all: match goal with
       | |- ∃ _ _ _ _, EvVerify ?raw (Ok ?i) :: ?post = _ ∧ _ =>
           exists [], raw, i, post
       | |- ∃ _ _ _ _, ?x :: EvVerify ?raw (Ok ?i) :: ?post = _ ∧ _ =>
           exists [x], raw, i, post
       end.
  all: split; [reflexivity|]; split; [assumption|]; pick_member.
Qed.

(** [X8]: with no hook installed, a verified login is logged and sent
    straight to the frontend URL. *)
Theorem callback_without_hook (r : Request) (rawIDToken : string) (idToken : IDToken) :
  OnLogin client = None →
  EvVerify rawIDToken (Ok idToken) ∈ callback r →
  ∃ pre, callback r
         = (pre ++ [EvVerify rawIDToken (Ok idToken);
                    EvLog LvlInfo [FStr "sub" (Subject idToken)] "login";
                    EvRedirect (frontendUrl client) 302])%list
         ∧ ∀ e, e ∈ pre → isExchange e = true.
Proof.
  intros Hhook Hin. revert Hin.
  handler_cases; intros Hin; trace_mem Hin; simplify_eq.
  all: first [ exists []; split; [reflexivity|]; intros e He; trace_mem He
             | eexists [_]; split; [reflexivity|];
               intros e He; trace_mem He; subst; reflexivity ].
Qed.

(** [X9]: the state [Auth] sends along is the value of the cookie it sets.
    Without a token the redirect goes to the authorization URL built from
    that state and from the request's raw query as nonce; with a token and
    developer login on, it goes to the registered callback URL with the
    token and that state appended. *)
Theorem auth_state_binding (r : Request) (key : Key) :
  random16 env = Ok key →
  (∀ c, EvSetCookie c ∈ auth r → Value c = Base64 key)
  ∧ (Values_Get (query r) "token" = "" →
       last (auth r)
       = Some (EvRedirect
                 (AuthCodeURL (oauthConfig client) (Base64 key)
                    [("nonce", RawQuery (ReqURL r))]) 302))
  ∧ (Values_Get (query r) "token" ≠ "" → allowDevLogin client = true →
       last (auth r)
       = Some (EvRedirect
                 (RedirectURL (oauthConfig client) ++ "?token="
                    ++ Values_Get (query r) "token" ++ "&state=" ++ Base64 key) 302)).
Proof.
  intros Hkey. split; [|split].
  - intros c Hin. revert Hin.
    handler_cases; intros Hin; trace_mem Hin; simplify_eq; reflexivity.
  - intros Ht. handler_cases; simplify_eq; reflexivity.
  - intros Ht Hdev. handler_cases; simplify_eq; reflexivity.
Qed.

(** [X10]: [Auth] only builds URLs.  It makes no call to the identity
    provider and none to the hook, so a developer token is passed on
    unverified. *)
Theorem auth_calls_no_provider (r : Request) (e : event) :
  e ∈ auth r → isExchange e = false ∧ isVerify e = false ∧ isOnLogin e = false.
Proof.
  intros Hin. revert Hin.
  handler_cases; intros Hin; trace_mem Hin; subst; repeat split.
Qed.

(** [X11]: the developer round trip.  When the browser follows the redirect
    of [Auth] with the cookie [Auth] set, and the query parser reads the
    token and the state back out of that query, [Callback] passes the state
    check and takes the same token to verification, without exchanging a
    code. *)
Theorem auth_dev_round_trip (r r' : Request) (key : Key) (env' : Env)
    (cookie : Cookie) :
  random16 env = Ok key →
  allowDevLogin client = true →
  Values_Get (query r) "token" ≠ "" →
  RawQuery (ReqURL r')
  = "token=" ++ Values_Get (query r) "token" ++ "&state=" ++ Base64 key →
  Values_Get (query r') "token" = Values_Get (query r) "token" →
  Values_Get (query r') "state" = Base64 key →
  Request_Cookie r' "state" = Ok cookie →
  (∀ c, EvSetCookie c ∈ auth r → Value cookie = Value c) →
  last (auth r)
  = Some (EvRedirect (RedirectURL (oauthConfig client) ++ "?" ++ RawQuery (ReqURL r')) 302)
  ∧ ∃ rest,
      run (Callback ParseQuery env' client r')
      = EvVerify (Values_Get (query r) "token")
          (verify env' (Values_Get (query r) "token")) :: rest
      ∧ ∀ e, e ∈ rest → isExchange e = false.
Proof.
  intros Hkey Hdev Ht Hq Htok Hst Hc Hval.
  assert (Value cookie = Base64 key) as Hv.
  { apply (Hval (mkCookie "state" (Base64 key) DefaultCookiePath
                   (Some (time_Add (now env) (DefaultLoginTimeout * Second)))
                   DefaultLoginTimeout true true)).
    revert Hval. handler_cases; simplify_eq; intros _; pick_member. }
  split.
  - rewrite Hq. handler_cases; simplify_eq; reflexivity.
  - clear Hval. revert Hc Hst Htok Ht Hdev Hv. generalize (Values_Get (query r) "token").
    intros tok Hc Hst Htok Ht Hdev Hv.
    handler_cases; simplify_eq; try congruence.
    all: eexists; (split; [reflexivity|]);
      intros e' He'; trace_mem He'; subst; reflexivity.
Qed.

End HandlerResponses.

(** * Further properties of [DumpToken] *)

Section DumpTokenEdges.

Variable json_Unmarshal : string → result (option string).
Variable json_MarshalIndent : DumpOut → result string.

Local Abbreviation dumpToken p i := (DumpToken json_Unmarshal json_MarshalIndent p i).

Lemma censored_idempotent (t : Token) : censored (censored t) = censored t.
Proof.
  destruct t as [a ty rf ex rw]. unfold censored; cbn.
  repeat (case_decide; cbn in * ); try reflexivity; congruence.
Qed.

(** [X12]: dumping the same token again changes nothing more: the store is
    as the first call left it and the same calls are made. *)
Theorem dumpToken_twice (h : gmap loc Token) (l : loc) (t : Token)
    (idToken : option IDToken) :
  h !! l = Some t →
  let s1 := snd (dumpToken (Some l) idToken (initState h)) in
  heap (snd (dumpToken (Some l) idToken (initState (heap s1)))) = heap s1
  ∧ trace (snd (dumpToken (Some l) idToken (initState (heap s1)))) = trace s1.
Proof.
  intros Hl s1.
  assert (heap s1 = <[l := censored t]> h) as Hs1.
  { subst s1. rewrite (DumpToken_steps _ _ (initState h) l t idToken Hl).
    apply DumpToken_render_heap. }
  assert (heap s1 !! l = Some (censored t)) as Hl1
    by (rewrite Hs1; apply lookup_insert_eq).
  rewrite (DumpToken_steps _ _ (initState (heap s1)) l (censored t) idToken Hl1).
  rewrite censored_idempotent. split.
  - rewrite DumpToken_render_heap. cbn. rewrite Hs1. apply insert_insert_eq.
  - subst s1. rewrite (DumpToken_steps _ _ (initState h) l t idToken Hl).
    apply DumpToken_render_trace. reflexivity.
Qed.


End DumpTokenEdges.

(** * Properties of [NewOidcClient] *)

Section ConstructionProperties.

Variable gooidc_NewProvider : string → result Provider.

Local Abbreviation newClient name id secret redirectUrl providerUrl frontendUrl options :=
  (NewOidcClient gooidc_NewProvider name id secret redirectUrl providerUrl
     frontendUrl options).

(** [X14]: construction succeeds exactly when discovery does, whatever the
    options; a failed discovery is handed back as the constructor's error. *)
Theorem NewOidcClient_discovery (name id secret redirectUrl providerUrl frontendUrl : string)
    (options : list OidcClientOption) :
  (∀ err, gooidc_NewProvider providerUrl = Err err →
          newClient name id secret redirectUrl providerUrl frontendUrl options = Err err)
  ∧ (∀ provider, gooidc_NewProvider providerUrl = Ok provider →
       ∃ client,
         newClient name id secret redirectUrl providerUrl frontendUrl options = Ok client).
Proof.
  unfold NewOidcClient. split.
  - intros err ->. reflexivity.
  - intros provider ->. eexists. reflexivity.
Qed.

Lemma stockOption_frame (o : OidcClientOption) (c : ClientObject) :
  stockOption o →
  ClientName (handlerFields (o c)) = ClientName (handlerFields c)
  ∧ clientID (handlerFields (o c)) = clientID (handlerFields c)
  ∧ frontendUrl (handlerFields (o c)) = frontendUrl (handlerFields c)
  ∧ state (handlerFields (o c)) = state (handlerFields c)
  ∧ oauthConfig (handlerFields (o c)) = oauthConfig (handlerFields c)
  ∧ OnLogin (handlerFields (o c)) = OnLogin (handlerFields c)
  ∧ oidcProvider (o c) = oidcProvider c
  ∧ verifier_ClientID (oidcConfig (o c)) = verifier_ClientID (oidcConfig c)
  ∧ oauthEndpoint (o c) = oauthEndpoint c.
Proof.
  intros [val|val]; cbn; repeat split.
Qed.

Lemma stockOptions_frame (options : list OidcClientOption) (c : ClientObject) :
  Forall stockOption options →
  let c' := foldl (λ client (option : OidcClientOption), option client) c options in
  ClientName (handlerFields c') = ClientName (handlerFields c)
  ∧ clientID (handlerFields c') = clientID (handlerFields c)
  ∧ frontendUrl (handlerFields c') = frontendUrl (handlerFields c)
  ∧ state (handlerFields c') = state (handlerFields c)
  ∧ oauthConfig (handlerFields c') = oauthConfig (handlerFields c)
  ∧ OnLogin (handlerFields c') = OnLogin (handlerFields c)
  ∧ oidcProvider c' = oidcProvider c
  ∧ verifier_ClientID (oidcConfig c') = verifier_ClientID (oidcConfig c)
  ∧ oauthEndpoint c' = oauthEndpoint c.
Proof.
  intros Hopts. revert c.
  induction Hopts as [|o options Ho Hopts IH]; intros c; cbn.
  - repeat split.
  - specialize (IH (o c)). cbn in IH.
    destruct (stockOption_frame o c Ho) as (H1 & H2 & H3 & H4 & H5 & H6 & H7 & H8 & H9).
    destruct IH as (I1 & I2 & I3 & I4 & I5 & I6 & I7 & I8 & I9).
    repeat split; congruence.
Qed.

(** [X15]: the package's two options change nothing but their own flag.
    A client built with any list of them keeps the name, the credentials,
    the URLs and the scopes it was given, has the provider's endpoint, the
    verifier's client id equal to the OAuth2 client id, and no hook. *)
Theorem NewOidcClient_options_frame
    (name id secret redirectUrl providerUrl frontend : string)
    (options : list OidcClientOption) (provider : Provider) :
  gooidc_NewProvider providerUrl = Ok provider →
  Forall stockOption options →
  ∃ client,
    newClient name id secret redirectUrl providerUrl frontend options = Ok client
    ∧ ClientName (handlerFields client) = name
    ∧ clientID (handlerFields client) = id
    ∧ frontendUrl (handlerFields client) = frontend
    ∧ oauthConfig (handlerFields client)
      = mkConfig id secret redirectUrl ["openid"; "profile"; "email"]
    ∧ OnLogin (handlerFields client) = None
    ∧ oidcProvider client = provider
    ∧ verifier_ClientID (oidcConfig client) = id
    ∧ oauthEndpoint client = provider_Endpoint provider.
Proof.
  intros Hp Hopts. unfold NewOidcClient. rewrite Hp.
  eexists. split; [reflexivity|].
  match goal with
  | |- context [foldl _ ?c options] =>
      destruct (stockOptions_frame options c Hopts)
        as (H1 & H2 & H3 & H4 & H5 & H6 & H7 & H8 & H9)
  end.
  cbn in *. repeat split; assumption.
Qed.

Lemma keepsDevLoginOff_options (options : list OidcClientOption) (c : ClientObject) :
  Forall keepsDevLoginOff options →
  allowDevLogin (handlerFields c) = false →
  allowDevLogin
    (handlerFields (foldl (λ client (option : OidcClientOption), option client) c options))
  = false.
Proof.
  intros Hopts. revert c.
  induction Hopts as [|o options Ho Hopts IH]; intros c Hc; cbn; [exact Hc|].
  apply IH. destruct Ho; cbn; [reflexivity | exact Hc].
Qed.

(** [X16]: developer login and the expiry check are set by the last option
    that names them: whatever options come first, a final
    [WithAllowDevLogin val] leaves [allowDevLogin = val], and a final
    [WithSkipExpiryCheck val] leaves [SkipExpiryCheck = val].  With no option
    at all both are off. *)
Theorem NewOidcClient_last_option_wins
    (name id secret redirectUrl providerUrl frontend : string)
    (options : list OidcClientOption) (provider : Provider) (val : bool) :
  gooidc_NewProvider providerUrl = Ok provider →
  (∃ client,
     newClient name id secret redirectUrl providerUrl frontend
       (options ++ [WithAllowDevLogin val]) = Ok client
     ∧ allowDevLogin (handlerFields client) = val)
  ∧ (∃ client,
       newClient name id secret redirectUrl providerUrl frontend
         (options ++ [WithSkipExpiryCheck val]) = Ok client
       ∧ SkipExpiryCheck (oidcConfig client) = val)
  ∧ (∃ client,
       newClient name id secret redirectUrl providerUrl frontend [] = Ok client
       ∧ allowDevLogin (handlerFields client) = false
       ∧ SkipExpiryCheck (oidcConfig client) = false).
Proof.
  intros Hp. unfold NewOidcClient. rewrite Hp.
  split; [|split]; eexists; (split; [reflexivity|]).
  - rewrite foldl_app. reflexivity.
  - rewrite foldl_app. reflexivity.
  - split; reflexivity.
Qed.

(** [X17]: a client built without [WithAllowDevLogin true] refuses developer
    tokens.  Whatever the request and the provider's answers, a callback
    with a non-empty [token] never verifies it, never calls a hook and never
    redirects. *)
Theorem NewOidcClient_default_refuses_dev_token
    (name id secret redirectUrl providerUrl frontend : string)
    (options : list OidcClientOption) (client : ClientObject)
    (ParseQuery : string → gmap string (list string)) (env : Env) (r : Request)
    (e : event) :
  Forall keepsDevLoginOff options →
  newClient name id secret redirectUrl providerUrl frontend options = Ok client →
  Values_Get (URL_Query ParseQuery (ReqURL r)) "token" ≠ "" →
  e ∈ run (Callback ParseQuery env (handlerFields client) r) →
  isVerify e = false ∧ isOnLogin e = false ∧ isRedirect e = false
  ∧ isExchange e = false.
Proof.
  intros Hopts Hnew Ht.
  assert (allowDevLogin (handlerFields client) = false) as Hdev.
  { unfold NewOidcClient in Hnew.
    destruct (gooidc_NewProvider providerUrl) as [provider|err]; [|discriminate].
    injection Hnew as <-. apply keepsDevLoginOff_options; [exact Hopts | reflexivity]. }
  revert Hdev Ht. generalize (handlerFields client). clear. intros c Hdev Ht Hin.
  revert Hin. handler_cases; intros Hin; trace_mem Hin; subst; repeat split.
Qed.

End ConstructionProperties.

(** * Properties of the dataset filters *)

Section WhereBuilderProperties.

Variable fmt_Sprintf : string → list string → string.

Local Abbreviation MaybeAdd := (psql.MaybeAdd fmt_Sprintf).
Local Abbreviation MaybeAddString := (psql.MaybeAddString fmt_Sprintf).
Local Abbreviation MaybeAddTimeFilter := (psql.MaybeAddTimeFilter fmt_Sprintf).

Ltac builder_cases :=
  unfold psql.MaybeAdd, psql.MaybeAddString, psql.MaybeAddTimeFilter, psql.addArg,
    psql.cprintf;
  repeat (first [case_decide | case_match]; simplify_eq/=).

Lemma built_args_le (w : psql.WhereBuilder) :
  built fmt_Sprintf w →
  (length (psql.args w) ≤ length (psql.conditions w))%nat.
Proof.
  induction 1 as [|w enabled query _ IH|w s query _ IH|w filter query _ IH].
  - reflexivity.
  - revert IH. builder_cases; rewrite ?length_app; cbn; lia.
  - revert IH. builder_cases; rewrite ?length_app; cbn; lia.
  - revert IH. builder_cases; rewrite ?length_app; cbn; lia.
Qed.

(** [X18]: a builder made with the exported operations never has more
    arguments than conditions, so [Where] hands back every argument that
    was added: its empty answer drops none. *)
Theorem Where_returns_all_args (w : psql.WhereBuilder) :
  built fmt_Sprintf w →
  (length (psql.args w) ≤ length (psql.conditions w))%nat
  ∧ snd (psql.Where w) = psql.args w
  ∧ (psql.conditions w = [] → psql.Where w = ("", []))
  ∧ (psql.conditions w ≠ [] →
       fst (psql.Where w) = "WHERE " ++ String.concat " AND " (psql.conditions w)).
Proof.
  intros Hw. pose proof (built_args_le w Hw) as Hle.
  split; [exact Hle|]. unfold psql.Where.
  destruct (psql.conditions w) as [|c cs] eqn:Hc; cbn in *.
  - destruct (psql.args w); cbn in *; [|lia]. repeat split; congruence.
  - repeat split; congruence.
Qed.

(** [X19]: the string given to [MaybeAddString] goes into the arguments and
    nowhere else.  The condition text, and so the text of the WHERE clause,
    is the same for any two non-empty strings; the string itself becomes the
    last argument. *)
Theorem MaybeAddString_keeps_text (w : psql.WhereBuilder) (s1 s2 query : string) :
  s1 ≠ "" → s2 ≠ "" →
  psql.conditions (MaybeAddString w s1 query)
  = psql.conditions (MaybeAddString w s2 query)
  ∧ fst (psql.Where (MaybeAddString w s1 query))
    = fst (psql.Where (MaybeAddString w s2 query))
  ∧ psql.args (MaybeAddString w s1 query) = (psql.args w ++ [psql.ArgString s1])%list.
Proof.
  intros H1 H2.
  assert (psql.conditions (MaybeAddString w s1 query)
          = psql.conditions (MaybeAddString w s2 query)) as Hc.
  { builder_cases; rewrite ?length_app; reflexivity. }
  split; [exact Hc|]. split.
  - unfold psql.Where. rewrite Hc. case_decide; reflexivity.
  - builder_cases; reflexivity.
Qed.

Lemma MaybeAddString_fold (l : list (string * string)) (w : psql.WhereBuilder) :
  let w' := foldl (λ w (sq : string * string), MaybeAddString w sq.1 sq.2) w l in
  let added := filter (λ sq : string * string, sq.1 ≠ "") l in
  psql.args w'
  = (psql.args w ++ ((λ sq : string * string, psql.ArgString sq.1) <$> added))%list
  ∧ psql.conditions w'
    = (psql.conditions w
       ++ imap (λ i (sq : string * string),
                  fmt_Sprintf
                    (strings_Replace sq.2 "$"%char
                       ("$" ++ strconv_Itoa (Z.of_nat (length (psql.args w) + i + 1))))
                    []) added)%list.
Proof.
  revert w. induction l as [|[s q] l IH]; intros w.
  - cbn. rewrite !app_nil_r. split; reflexivity.
  - cbn zeta in *. rewrite filter_cons. cbn [foldl fst snd].
    destruct (IH (MaybeAddString w s q)) as [IHa IHc]. rewrite IHa, IHc.
    clear IH IHa IHc.
    unfold psql.MaybeAddString at 1 2 3.
    destruct (decide (s ≠ "")) as [Hs|Hs]; cbn [fst snd]; [|split; reflexivity].
    unfold psql.addArg, psql.cprintf. cbn [psql.args psql.conditions].
    rewrite fmap_cons, imap_cons, <- !app_assoc. cbn [app fst snd].
    split; [reflexivity|].
    f_equal. f_equal.
    + rewrite length_app. cbn [length].
      replace (length (psql.args w) + 0 + 1)%nat
        with (length (psql.args w) + 1)%nat by lia.
      reflexivity.
    + apply imap_ext. intros i [s' q'] _. cbn [compose fst snd].
      rewrite length_app. cbn [length].
      replace (length (psql.args w) + 1 + i + 1)%nat
        with (length (psql.args w) + S i + 1)%nat by lia.
      reflexivity.
Qed.

(** [X20]: adding strings one after the other from a new builder.  The
    empty ones are skipped; the others become the arguments, in order, and
    the condition of the k-th of them is its query with every [$] replaced
    by [$k], the position of its argument. *)
Theorem MaybeAddString_numbering (l : list (string * string)) :
  let w := foldl (λ w (sq : string * string), MaybeAddString w sq.1 sq.2)
             psql.NewWhereBuilder l in
  let added := filter (λ sq : string * string, sq.1 ≠ "") l in
  psql.args w = (λ sq : string * string, psql.ArgString sq.1) <$> added
  ∧ psql.conditions w
    = imap (λ i (sq : string * string),
              fmt_Sprintf
                (strings_Replace sq.2 "$"%char
                   ("$" ++ strconv_Itoa (Z.of_nat (i + 1)))) []) added.
Proof.
  exact (MaybeAddString_fold l psql.NewWhereBuilder).
Qed.

End WhereBuilderProperties.

Section TimeFilterProperties.

Variable fmt_Sprintf : string → list string → string.
Variable time_ParseInLocation : string → string → Time * option error.
Variable time_AddDate : Time → Z → Z → Z → Time.

Local Abbreviation MaybeAddTimeFilter := (psql.MaybeAddTimeFilter fmt_Sprintf).
Local Abbreviation ParseTimeFilter :=
  (psql.ParseTimeFilter time_ParseInLocation time_AddDate).

Ltac filter_cases :=
  unfold psql.MaybeAddTimeFilter, psql.addArg, psql.cprintf, psql.End, psql.Start;
  repeat (first [case_decide | case_match]; simplify_eq/=).

(** [X21]: the conditions a time filter adds, given what [fmt.Sprintf] makes
    of the two formats.  Equality is the half-open range: the query below
    the end of the range and at or above its start; [_le] is below the end,
    [_ge] at or above the start, [_lt] below the start and [_gt] at or
    above the end.  Each placeholder is the position of the time it was
    added for. *)
Theorem MaybeAddTimeFilter_ranges (w : psql.WhereBuilder) (filter : psql.TimeFilter)
    (query : string) :
  (∀ a b, fmt_Sprintf "%s < %s" [a; b] = a ++ " < " ++ b) →
  (∀ a b, fmt_Sprintf "%s >= %s" [a; b] = a ++ " >= " ++ b) →
  psql.IsZero filter = false →
  let n := Z.of_nat (length (psql.args w)) in
  let start := psql.Time filter in
  let end_ := psql.Time filter + psql.Precision filter in
  (psql.Comparison filter = psql.CompareEq →
     MaybeAddTimeFilter w filter query
     = psql.mkWhereBuilder
         (psql.conditions w ++ [query ++ " < $" ++ strconv_Itoa (n + 1);
                                query ++ " >= $" ++ strconv_Itoa (n + 2)])
         (psql.args w ++ [psql.ArgTime end_; psql.ArgTime start]))
  ∧ (psql.Comparison filter = psql.CompareLe →
       MaybeAddTimeFilter w filter query
       = psql.mkWhereBuilder
           (psql.conditions w ++ [query ++ " < $" ++ strconv_Itoa (n + 1)])
           (psql.args w ++ [psql.ArgTime end_]))
  ∧ (psql.Comparison filter = psql.CompareGe →
       MaybeAddTimeFilter w filter query
       = psql.mkWhereBuilder
           (psql.conditions w ++ [query ++ " >= $" ++ strconv_Itoa (n + 1)])
           (psql.args w ++ [psql.ArgTime start]))
  ∧ (psql.Comparison filter = psql.CompareLt →
       MaybeAddTimeFilter w filter query
       = psql.mkWhereBuilder
           (psql.conditions w ++ [query ++ " < $" ++ strconv_Itoa (n + 1)])
           (psql.args w ++ [psql.ArgTime start]))
  ∧ (psql.Comparison filter = psql.CompareGt →
       MaybeAddTimeFilter w filter query
       = psql.mkWhereBuilder
           (psql.conditions w ++ [query ++ " >= $" ++ strconv_Itoa (n + 1)])
           (psql.args w ++ [psql.ArgTime end_])).
Proof.
  intros Hlt Hge Hz n start end_. subst n start end_.
  assert (∀ k : nat, Z.of_nat (length (psql.args w) + k)
                     = Z.of_nat (length (psql.args w)) + Z.of_nat k) as Hlen
    by (intros; lia).
  repeat split; intros Hc.
  all: unfold psql.MaybeAddTimeFilter, psql.addArg, psql.cprintf, psql.End,
         psql.Start, time_Add; rewrite Hz, Hc; cbn.
  all: rewrite ?Hlt, ?Hge, ?length_app, <- ?app_assoc; cbn.
  all: rewrite <- ?Nat.add_assoc, ?Hlen; reflexivity.
Qed.

(** [X22]: a time filter adds as many arguments as conditions, two at most,
    and none at all when its time is the zero time or its comparison is
    none of the five. *)
Theorem MaybeAddTimeFilter_balanced (w : psql.WhereBuilder) (filter : psql.TimeFilter)
    (query : string) :
  ∃ k : nat,
    (k ≤ 2)%nat
    ∧ length (psql.conditions (MaybeAddTimeFilter w filter query))
      = (length (psql.conditions w) + k)%nat
    ∧ length (psql.args (MaybeAddTimeFilter w filter query))
      = (length (psql.args w) + k)%nat
    ∧ (psql.IsZero filter = true ∨ ¬ (0 ≤ psql.Comparison filter ≤ 4)%Z →
       MaybeAddTimeFilter w filter query = w).
Proof.
  unfold psql.MaybeAddTimeFilter, psql.addArg, psql.cprintf,
    psql.CompareEq, psql.CompareLe, psql.CompareGe, psql.CompareLt, psql.CompareGt.
  destruct (psql.IsZero filter); cbn.
  - exists 0%nat. repeat split; try lia. 
  - repeat case_decide; cbn; rewrite ?length_app; cbn.
    all: first [ exists 2%nat; repeat split; lia
               | exists 1%nat; repeat split; lia
               | exists 0%nat; repeat split; try lia; intros; reflexivity ].
Qed.

Lemma strings_Replace_space_twice (s : string) :
  strings_Replace (strings_Replace s " "%char "+") " "%char "+"
  = strings_Replace s " "%char "+".
Proof.
  induction s as [|c s IH]; cbn; [reflexivity|].
  destruct (decide (c = " "%char)) as [->|Hc].
  - change (strings_Replace (String "+" (strings_Replace s " " "+")) " " "+"
            = String "+" (strings_Replace s " " "+")).
    cbn. rewrite IH. reflexivity.
  - change (strings_Replace (String c (strings_Replace s " " "+")) " " "+"
            = String c (strings_Replace s " " "+")).
    cbn. destruct (decide (c = " "%char)); [contradiction|]. rewrite IH. reflexivity.
Qed.

(** [X23]: a space in the time string stands for a plus sign, as a query
    string decodes it: the filter parsed from a string is the one parsed
    from the same string with every space written as [+]. *)
Theorem ParseTimeFilter_space_is_plus (suffix timeString : string) :
  ParseTimeFilter suffix (strings_Replace timeString " "%char "+")
  = ParseTimeFilter suffix timeString.
Proof.
  unfold psql.ParseTimeFilter. rewrite strings_Replace_space_twice. reflexivity.
Qed.

Lemma ParseTimeFilter_Comparison (suffix timeString : string) :
  psql.Comparison (ParseTimeFilter suffix timeString)
  = psql.ComparisonSuffixes_at suffix.
Proof.
  unfold psql.ParseTimeFilter.
  repeat (case_match; try case_decide); reflexivity.
Qed.

(** [X24]: the comparison of a parsed filter is one of the five, and it is
    equality for every suffix other than [_le], [_ge], [_lt] and [_gt]: an
    unknown suffix is not an error. *)
Theorem ParseTimeFilter_suffix (suffix timeString : string) :
  (0 ≤ psql.Comparison (ParseTimeFilter suffix timeString) ≤ 4)%Z
  ∧ (suffix ≠ "_le" → suffix ≠ "_ge" → suffix ≠ "_lt" → suffix ≠ "_gt" →
     psql.Comparison (ParseTimeFilter suffix timeString) = psql.CompareEq)
  ∧ (suffix = "_le" → psql.Comparison (ParseTimeFilter suffix timeString) = psql.CompareLe)
  ∧ (suffix = "_ge" → psql.Comparison (ParseTimeFilter suffix timeString) = psql.CompareGe)
  ∧ (suffix = "_lt" → psql.Comparison (ParseTimeFilter suffix timeString) = psql.CompareLt)
  ∧ (suffix = "_gt" → psql.Comparison (ParseTimeFilter suffix timeString) = psql.CompareGt).
Proof.
  rewrite ParseTimeFilter_Comparison.
  unfold psql.ComparisonSuffixes_at, psql.ComparisonSuffixes.
  split; [|split; [|repeat split; intros ->; reflexivity]].
  - rewrite !lookup_insert, lookup_empty.
    repeat case_decide; cbn; unfold psql.CompareEq, psql.CompareLe, psql.CompareGe,
      psql.CompareLt, psql.CompareGt; lia.
  - intros H1 H2 H3 H4. rewrite !lookup_insert, lookup_empty.
    repeat case_decide; cbn; first [reflexivity | congruence].
Qed.




End TimeFilterProperties.

(** * The further properties at work on the examples *)

Lemma callback_answers_witness :
  EvHttpError "state did not match" 400
    ∈ run (Callback ParseQuery_plain (exampleEnv (Ok "k3y") 0) (exampleClient false None)
             (exampleRequest [stateCookie "abc"] "state=abd&code=c0de"))
  ∧ EvHttpError "state did not match" 400
      ∈ [EvHttpError "login session expired" 400;
         EvHttpError "state did not match" 400;
         EvHttpError "access denied" 403;
         EvHttpError "failed to exchange code for token" 500;
         EvHttpError "IdP did not sent an id token" 500;
         EvHttpError "id token verification failed" 500;
         EvHttpError "Login failed" 500;
         EvRedirect "https://qvain.example/" 302;
         EvRedirect "https://qvain.example/?missingcsc=1" 302;
         EvRedirect "https://qvain.example/?missingorg=1" 302].
Proof.
  split; [in_trace|].
  apply (callback_answers ParseQuery_plain (exampleEnv (Ok "k3y") 0)
           (exampleClient false None)
           (exampleRequest [stateCookie "abc"] "state=abd&code=c0de")
           (EvHttpError "state did not match" 400)); [in_trace | reflexivity].
Defined.

Lemma callback_exchange_failure_witness :
  exchange (exampleEnv (Ok "k3y") 0) "nope" = Err (ErrOther "oauth2: cannot fetch token")
  ∧ run (Callback ParseQuery_plain (exampleEnv (Ok "k3y") 0) (exampleClient false None)
           (exampleRequest [stateCookie "abc"] "state=abc&code=nope"))
    = [EvExchange "nope" (Err (ErrOther "oauth2: cannot fetch token"));
       EvLog LvlError [FErr (ErrOther "oauth2: cannot fetch token")] "token exchange failed";
       EvHttpError "failed to exchange code for token" 500].
Proof.
  split; [reflexivity|].
  apply (callback_exchange_failure ParseQuery_plain (exampleEnv (Ok "k3y") 0)
           (exampleClient false None)
           (exampleRequest [stateCookie "abc"] "state=abc&code=nope")
           (stateCookie "abc") (ErrOther "oauth2: cannot fetch token"));
    reflexivity.
Defined.

Lemma callback_missing_id_token_witness :
  Token_Extra_string exampleTokenBare "id_token" = ("", false)
  ∧ run (Callback ParseQuery_plain exampleEnvBare (exampleClient false None)
           (exampleRequest [stateCookie "abc"] "state=abc&code=c0de"))
    = [EvExchange "c0de" (Ok exampleTokenBare);
       EvLog LvlError [] "id_token missing from IdP response";
       EvHttpError "IdP did not sent an id token" 500].
Proof.
  split; [reflexivity|].
  apply (callback_missing_id_token ParseQuery_plain exampleEnvBare
           (exampleClient false None)
           (exampleRequest [stateCookie "abc"] "state=abc&code=c0de")
           (stateCookie "abc") exampleTokenBare ""); reflexivity.
Defined.

Lemma callback_hook_guarded_witness :
  EvOnLogin (Some exampleToken) exampleIDToken (Some ErrMissingOrganization)
    ∈ run (Callback ParseQuery_plain (exampleEnv (Ok "k3y") 0)
             (exampleClient false (Some hookMissingOrganization))
             (exampleRequest [stateCookie "abc"] "state=abc&code=c0de"))
  ∧ ∃ rawIDToken, verify (exampleEnv (Ok "k3y") 0) rawIDToken = Ok exampleIDToken.
Proof.
  split; [in_trace|].
  destruct (callback_hook_guarded ParseQuery_plain (exampleEnv (Ok "k3y") 0)
              (exampleClient false (Some hookMissingOrganization))
              (exampleRequest [stateCookie "abc"] "state=abc&code=c0de")
              (Some exampleToken) exampleIDToken (Some ErrMissingOrganization))
    as (cookie & rawIDToken & _ & _ & Hv & _); [in_trace|].
  exists rawIDToken. exact Hv.
Defined.

Lemma callback_redirect_after_verify_witness :
  EvRedirect "https://qvain.example/" 302
    ∈ run (Callback ParseQuery_plain (exampleEnv (Ok "k3y") 0) (exampleClient false None)
             (exampleRequest [stateCookie "abc"] "state=abc&code=c0de"))
  ∧ ∃ rawIDToken idToken,
      verify (exampleEnv (Ok "k3y") 0) rawIDToken = Ok idToken.
Proof.
  split; [in_trace|].
  destruct (callback_redirect_after_verify ParseQuery_plain (exampleEnv (Ok "k3y") 0)
              (exampleClient false None)
              (exampleRequest [stateCookie "abc"] "state=abc&code=c0de")
              "https://qvain.example/" 302)
    as (pre & rawIDToken & idToken & post & _ & Hv & _); [in_trace|].
  exists rawIDToken, idToken. exact Hv.
Defined.

Lemma callback_without_hook_witness :
  EvVerify "good.jwt" (Ok exampleIDToken)
    ∈ run (Callback ParseQuery_plain (exampleEnv (Ok "k3y") 0) (exampleClient false None)
             (exampleRequest [stateCookie "abc"] "state=abc&code=c0de"))
  ∧ ∃ pre,
      run (Callback ParseQuery_plain (exampleEnv (Ok "k3y") 0) (exampleClient false None)
             (exampleRequest [stateCookie "abc"] "state=abc&code=c0de"))
      = (pre ++ [EvVerify "good.jwt" (Ok exampleIDToken);
                 EvLog LvlInfo [FStr "sub" "alice"] "login";
                 EvRedirect "https://qvain.example/" 302])%list.
Proof.
  split; [in_trace|].
  destruct (callback_without_hook ParseQuery_plain (exampleEnv (Ok "k3y") 0)
              (exampleClient false None)
              (exampleRequest [stateCookie "abc"] "state=abc&code=c0de")
              "good.jwt" exampleIDToken)
    as (pre & Htrace & _); [reflexivity | in_trace |].
  exists pre. exact Htrace.
Defined.

Lemma auth_state_binding_witness :
  random16 (exampleEnv (Ok "k3y") 7) = Ok "k3y"
  ∧ last (run (Auth ParseQuery_plain Base64_plain AuthCodeURL_plain
                 (exampleEnv (Ok "k3y") 7) (exampleClient true None)
                 (exampleRequest [] "token=good.jwt")))
    = Some (EvRedirect "https://qvain.example/api/auth/cb?token=good.jwt&state=k3y" 302).
Proof.
  split; [reflexivity|].
  apply (auth_state_binding ParseQuery_plain Base64_plain AuthCodeURL_plain
           (exampleEnv (Ok "k3y") 7) (exampleClient true None)
           (exampleRequest [] "token=good.jwt") "k3y" eq_refl).
  - vm_compute; discriminate.
  - reflexivity.
Defined.

Lemma auth_calls_no_provider_witness :
  EvNow 7
    ∈ run (Auth ParseQuery_plain Base64_plain AuthCodeURL_plain
             (exampleEnv (Ok "k3y") 7) (exampleClient true None)
             (exampleRequest [] "token=good.jwt"))
  ∧ isVerify (EvNow 7) = false.
Proof.
  split; [in_trace|].
  apply (auth_calls_no_provider ParseQuery_plain Base64_plain AuthCodeURL_plain
           (exampleEnv (Ok "k3y") 7) (exampleClient true None)
           (exampleRequest [] "token=good.jwt") (EvNow 7)).
  in_trace.
Defined.

Lemma auth_dev_round_trip_witness :
  RawQuery (ReqURL (exampleRequest [stateCookie "k3y"] "token=good.jwt&state=k3y"))
  = "token=" ++ "good.jwt" ++ "&state=" ++ Base64_plain "k3y"
  ∧ ∃ rest,
      run (Callback ParseQuery_plain (exampleEnv (Ok "n3w") 9) (exampleClient true None)
             (exampleRequest [stateCookie "k3y"] "token=good.jwt&state=k3y"))
      = EvVerify "good.jwt" (Ok exampleIDToken) :: rest.
Proof.
  split; [reflexivity|].
  destruct (auth_dev_round_trip ParseQuery_plain Base64_plain AuthCodeURL_plain
              (exampleEnv (Ok "k3y") 7) (exampleClient true None)
              (exampleRequest [] "token=good.jwt")
              (exampleRequest [stateCookie "k3y"] "token=good.jwt&state=k3y")
              "k3y" (exampleEnv (Ok "n3w") 9) (stateCookie "k3y"))
    as (_ & rest & Htrace & _).
  - reflexivity.
  - reflexivity.
  - vm_compute; discriminate.
  - reflexivity.
  - reflexivity.
  - reflexivity.
  - reflexivity.
  - intros c Hin. vm_compute in Hin. trace_mem Hin.
    injection Hin as ->. reflexivity.
  - exists rest. exact Htrace.
Defined.

Lemma dumpToken_twice_witness :
  ({[ 1%positive := exampleToken ]} : gmap loc Token) !! 1%positive = Some exampleToken
  ∧ trace (snd (DumpToken json_Unmarshal_raw json_MarshalIndent_example
                  (Some 1%positive) (Some exampleIDToken)
                  (initState
                     (heap (snd (DumpToken json_Unmarshal_raw json_MarshalIndent_example
                                   (Some 1%positive) (Some exampleIDToken)
                                   (initState {[ 1%positive := exampleToken ]})))))))
    = trace (snd (DumpToken json_Unmarshal_raw json_MarshalIndent_example
                    (Some 1%positive) (Some exampleIDToken)
                    (initState {[ 1%positive := exampleToken ]}))).
Proof.
  assert (({[ 1%positive := exampleToken ]} : gmap loc Token) !! 1%positive
          = Some exampleToken) as Hl by reflexivity.
  split; [exact Hl|].
  apply (dumpToken_twice json_Unmarshal_raw json_MarshalIndent_example
           {[ 1%positive := exampleToken ]} 1%positive exampleToken
           (Some exampleIDToken) Hl).
Defined.


Lemma NewOidcClient_discovery_witness :
  NewProvider_example "https://elsewhere.example" = Err (ErrOther "oidc: discovery failed")
  ∧ NewOidcClient NewProvider_example "fairdata" "qvain" "secret"
      "https://qvain.example/api/auth/cb" "https://elsewhere.example"
      "https://qvain.example/" [WithAllowDevLogin true]
    = Err (ErrOther "oidc: discovery failed").
Proof.
  split; [reflexivity|].
  apply (proj1 (NewOidcClient_discovery NewProvider_example "fairdata" "qvain" "secret"
                  "https://qvain.example/api/auth/cb" "https://elsewhere.example"
                  "https://qvain.example/" [WithAllowDevLogin true])).
  reflexivity.
Defined.

Lemma NewOidcClient_options_frame_witness :
  NewProvider_example "https://idp.example" = Ok exampleProvider
  ∧ Forall stockOption [WithAllowDevLogin true; WithSkipExpiryCheck true]
  ∧ ∃ client,
      NewOidcClient NewProvider_example "fairdata" "qvain" "secret"
        "https://qvain.example/api/auth/cb" "https://idp.example"
        "https://qvain.example/" [WithAllowDevLogin true; WithSkipExpiryCheck true]
      = Ok client
      ∧ frontendUrl (handlerFields client) = "https://qvain.example/".
Proof.
  assert (Forall stockOption [WithAllowDevLogin true; WithSkipExpiryCheck true]) as Hopts
    by (repeat constructor).
  split; [reflexivity|]. split; [exact Hopts|].
  destruct (NewOidcClient_options_frame NewProvider_example "fairdata" "qvain" "secret"
              "https://qvain.example/api/auth/cb" "https://idp.example"
              "https://qvain.example/" [WithAllowDevLogin true; WithSkipExpiryCheck true]
              exampleProvider eq_refl Hopts)
    as (client & Hnew & _ & _ & Hfront & _).
  exists client. split; [exact Hnew | exact Hfront].
Defined.

Lemma NewOidcClient_last_option_wins_witness :
  NewProvider_example "https://idp.example" = Ok exampleProvider
  ∧ ∃ client,
      NewOidcClient NewProvider_example "fairdata" "qvain" "secret"
        "https://qvain.example/api/auth/cb" "https://idp.example"
        "https://qvain.example/" [WithAllowDevLogin true; WithAllowDevLogin false]
      = Ok client
      ∧ allowDevLogin (handlerFields client) = false.
Proof.
  split; [reflexivity|].
  exact (proj1 (NewOidcClient_last_option_wins NewProvider_example "fairdata" "qvain"
                  "secret" "https://qvain.example/api/auth/cb" "https://idp.example"
                  "https://qvain.example/" [WithAllowDevLogin true] exampleProvider
                  false eq_refl)).
Defined.

Lemma NewOidcClient_default_refuses_dev_token_witness :
  Forall keepsDevLoginOff [WithSkipExpiryCheck true]
  ∧ isVerify (EvHttpError "access denied" 403) = false.
Proof.
  assert (Forall keepsDevLoginOff [WithSkipExpiryCheck true]) as Hopts
    by (repeat constructor).
  split; [exact Hopts|].
  apply (NewOidcClient_default_refuses_dev_token NewProvider_example "fairdata" "qvain"
           "secret" "https://qvain.example/api/auth/cb" "https://idp.example"
           "https://qvain.example/" [WithSkipExpiryCheck true]
           (mkClientObject (exampleClient false None) exampleProvider
              (mk_gooidc_Config "qvain" true) (provider_Endpoint exampleProvider))
           ParseQuery_plain (exampleEnv (Ok "k3y") 0)
           (exampleRequest [stateCookie "abc"] "state=abc&token=good.jwt")
           (EvHttpError "access denied" 403) Hopts).
  - reflexivity.
  - vm_compute; discriminate.
  - in_trace.
Defined.

Lemma string_app_nil_r (s : string) : s ++ "" = s.
Proof.
  induction s as [|c s IH]; [reflexivity|].
  change (String c s ++ "") with (String c (s ++ "")). rewrite IH. reflexivity.
Qed.

Lemma Sprintf_plain_lt (a b : string) :
  Sprintf_plain "%s < %s" [a; b] = a ++ " < " ++ b.
Proof.
  cbn. rewrite string_app_nil_r. reflexivity.
Qed.

Lemma Sprintf_plain_ge (a b : string) :
  Sprintf_plain "%s >= %s" [a; b] = a ++ " >= " ++ b.
Proof.
  cbn. rewrite string_app_nil_r. reflexivity.
Qed.

Example where_two_strings :
  psql.Where
    (psql.MaybeAddString Sprintf_plain
       (psql.MaybeAddString Sprintf_plain
          (psql.MaybeAdd Sprintf_plain psql.NewWhereBuilder true "published")
          "" "owner = $")
       "csc" "org = $ OR parent = $")
  = ("WHERE published AND org = $1 OR parent = $1", [psql.ArgString "csc"]).
Proof. reflexivity. Qed.

Lemma Where_returns_all_args_witness :
  built Sprintf_plain
    (psql.MaybeAddString Sprintf_plain psql.NewWhereBuilder "alice" "owner = $")
  ∧ psql.Where
      (psql.MaybeAddString Sprintf_plain psql.NewWhereBuilder "alice" "owner = $")
    = ("WHERE owner = $1", [psql.ArgString "alice"])
  ∧ snd (psql.Where
           (psql.MaybeAddString Sprintf_plain psql.NewWhereBuilder "alice" "owner = $"))
    = psql.args
        (psql.MaybeAddString Sprintf_plain psql.NewWhereBuilder "alice" "owner = $").
Proof.
  assert (built Sprintf_plain
            (psql.MaybeAddString Sprintf_plain psql.NewWhereBuilder "alice" "owner = $"))
    as Hb by (apply built_MaybeAddString, built_New).
  split; [exact Hb|]. split; [reflexivity|].
  exact (proj1 (proj2 (Where_returns_all_args Sprintf_plain _ Hb))).
Defined.

Lemma MaybeAddString_keeps_text_witness :
  "alice" ≠ "" ∧ "x' OR 1=1 --" ≠ ""
  ∧ fst (psql.Where (psql.MaybeAddString Sprintf_plain psql.NewWhereBuilder
                       "alice" "owner = $"))
    = fst (psql.Where (psql.MaybeAddString Sprintf_plain psql.NewWhereBuilder
                         "x' OR 1=1 --" "owner = $")).
Proof.
  split; [discriminate|]. split; [discriminate|].
  apply (MaybeAddString_keeps_text Sprintf_plain psql.NewWhereBuilder
           "alice" "x' OR 1=1 --" "owner = $"); discriminate.
Defined.

Lemma MaybeAddTimeFilter_ranges_witness :
  psql.IsZero (psql.mkTimeFilter (24 * Hour) 1566864000000000000 psql.CompareGt) = false
  ∧ psql.MaybeAddTimeFilter Sprintf_plain psql.NewWhereBuilder
      (psql.mkTimeFilter (24 * Hour) 1566864000000000000 psql.CompareGt) "created"
    = psql.mkWhereBuilder ["created >= $1"] [psql.ArgTime 1566950400000000000].
Proof.
  split; [reflexivity|].
  apply (MaybeAddTimeFilter_ranges Sprintf_plain psql.NewWhereBuilder
           (psql.mkTimeFilter (24 * Hour) 1566864000000000000 psql.CompareGt) "created"
           Sprintf_plain_lt Sprintf_plain_ge eq_refl).
  reflexivity.
Defined.

Lemma ParseTimeFilter_suffix_witness :
  "_foo" ≠ "_le"
  ∧ psql.Comparison
      (psql.ParseTimeFilter ParseInLocation_example AddDate_example "_foo" "2019")
    = psql.CompareEq.
Proof.
  split; [discriminate|].
  apply (ParseTimeFilter_suffix ParseInLocation_example AddDate_example "_foo" "2019");
    discriminate.
Defined.


